(** * Cross-chain arbitrage bot: a shallow embedding and its properties

    The development follows the Python sources under [app/]:
    - [app/utils/blockchain_interface.py]  (module [Blockchain])
    - [app/utils/ai_strategy.py]           (module [Strategy])
    - [app/utils/arbitrage_finder.py]      (module [Finder])
    - [app/utils/price_fetcher.py]         (module [Prices])
    - [app/components/dashboard.py]        (module [Dashboard])

    Conventions.
    - Python [float]s are idealised as exact rationals [Q]; the decimal
      literals of the source ([0.99], [0.995], [0.5], ...) are the
      corresponding fractions.
    - A Python exception is represented by its message [str(e)], which is the
      only thing the code ever keeps of it.
    - Coroutines are run to completion one after the other ([await] is
      sequencing); everything that talks to the outside (venues, bridges, the
      language-model service) is a parameter that takes the state of the
      outside world and returns a value or an exception together with the new
      state of the world. *)

From Stdlib Require Import QArith Lqa Qabs.
From stdpp Require Import gmap strings list.

Open Scope string_scope.
Open Scope list_scope.

(** ** Python-level building blocks *)

Module Py.

(** [str(e)] of a raised exception. *)
Definition Exn := string.

(** Computations over a mutable state [S] that either return or raise.
    The state survives an exception, as it does in Python. *)
Definition M (S A : Type) : Type := S -> (Exn + A) * S.

Definition ret {S A} (a : A) : M S A := fun s => (inr a, s).

Definition raise {S A} (e : Exn) : M S A := fun s => (inl e, s).

Definition bind {S A B} (m : M S A) (k : A -> M S B) : M S B :=
  fun s =>
    match m s with
    | (inl e, s') => (inl e, s')
    | (inr a, s') => k a s'
    end.

(** [try: body  except Exception as e: handler(e)] *)
Definition try_except {S A} (body : M S A) (handler : Exn -> M S A) : M S A :=
  fun s =>
    match body s with
    | (inl e, s') => handler e s'
    | (inr a, s') => (inr a, s')
    end.

Definition gets {S A} (f : S -> A) : M S A := fun s => (inr (f s), s).

Definition modify {S} (f : S -> S) : M S unit := fun s => (inr tt, f s).

(** [str(KeyError(k))] is the [repr] of the key. *)
Definition KeyError (k : string) : Exn := "'" +:+ k +:+ "'".

(** [d[k]] on a dict whose entry for [k] may be absent. *)
Definition getitem {S A} (k : string) (entry : option A) : M S A :=
  match entry with
  | Some a => ret a
  | None => raise (KeyError k)
  end.

(** Comparisons of numbers, as booleans. *)
Definition lt (a b : Q) : bool := negb (Qle_bool b a).
Definition gt (a b : Q) : bool := lt b a.
Definition ge (a b : Q) : bool := Qle_bool b a.

(** The builtins [min(a, b)] and [max(a, b)]: the first argument is kept
    unless the second is strictly smaller (resp. larger). *)
Definition min (a b : Q) : Q := if lt b a then b else a.
Definition max (a b : Q) : Q := if gt b a then b else a.

(** The builtin [sum]: starts from [0] and adds from the left. *)
Definition sum (l : list Q) : Q := fold_left Qplus l 0%Q.

End Py.

Declare Scope py_scope.
Delimit Scope py_scope with py.
Notation "x <- m ;; k" := (Py.bind m (fun x => k))
  (at level 100, m at next level, right associativity) : py_scope.
Notation "m ;; k" := (Py.bind m (fun _ => k))
  (at level 100, right associativity) : py_scope.

(** ** [app/utils/blockchain_interface.py] *)

Module Blockchain.

(** The [opportunity: Dict[str, Any]] argument of [execute_arbitrage]. Only
    the six keys the function reads are kept; a key may be absent, in which
    case reading it raises [KeyError]. *)
Record OpportunityDict := {
  source_chain : option string;
  source_dex : option string;
  target_chain : option string;
  target_dex : option string;
  token_pair : option (string * string);
  required_capital : option Q
}.

(** The dicts returned by [execute_dex_trade] and [bridge_assets]. *)
Inductive Transaction :=
| DexTrade (chain dex action : string) (amount received : Q) (tx_hash : string)
| BridgeTransfer (from_chain to_chain token : string) (amount received : Q)
    (tx_hash : string).

(** [tx['amount']] and [tx['received_amount']] *)
Definition amount (tx : Transaction) : Q :=
  match tx with
  | DexTrade _ _ _ a _ _ | BridgeTransfer _ _ _ a _ _ => a
  end.

Definition received_amount (tx : Transaction) : Q :=
  match tx with
  | DexTrade _ _ _ _ r _ | BridgeTransfer _ _ _ _ r _ => r
  end.

(** The [result] dict built by [execute_arbitrage]. *)
Record Result := {
  success : bool;
  transactions : list Transaction;
  errors : list string
}.

(** A leg that was started, with the arguments it was started with. *)
Inductive LegCall :=
| CallDexTrade (chain dex action : string) (amount : Q)
    (token_pair : string * string)
| CallBridge (from_chain to_chain token : string) (amount : Q).

Inductive LegKind := Acquire | Bridge | Dispose.

(** The legs are the two coroutines [execute_dex_trade] and [bridge_assets]
    of the interface. What they do on chain is outside of the function under
    study: given the state [W] of the outside world they return a transaction
    or raise. *)
Class Legs (W : Type) := {
  execute_dex_trade :
    string -> string -> string -> Q -> string * string ->
    W -> (Py.Exn + Transaction) * W;
  bridge_assets :
    string -> string -> string -> Q -> W -> (Py.Exn + Transaction) * W
}.

(** The state [execute_arbitrage] runs in: the outside world, its local
    [result], and (for the statements only) the journal of the legs started
    so far, each with its outcome. *)
Record State (W : Type) := {
  world : W;
  result : Result;
  journal : list (LegCall * (Py.Exn + Transaction))
}.
Arguments world {W}.
Arguments result {W}.
Arguments journal {W}.

(** The state on entry: [result = {"success": False, "transactions": [],
    "errors": []}], no leg started. *)
Definition enter {W} (w : W) : State W :=
  {| world := w;
     result := {| success := false; transactions := []; errors := [] |};
     journal := [] |}.

Section Execution.
Context {W : Type} {legs : Legs W}.

Local Open Scope py_scope.

(** [await self.execute_dex_trade(...)] *)
Definition await_dex_trade (chain dex action : string) (amt : Q)
    (pair : string * string) : Py.M (State W) Transaction :=
  fun s =>
    let '(o, w') := execute_dex_trade chain dex action amt pair (world s) in
    (o, {| world := w'; result := result s;
           journal := journal s ++ [(CallDexTrade chain dex action amt pair, o)] |}).

(** [await self.bridge_assets(...)] *)
Definition await_bridge (from_chain to_chain token : string) (amt : Q)
    : Py.M (State W) Transaction :=
  fun s =>
    let '(o, w') := bridge_assets from_chain to_chain token amt (world s) in
    (o, {| world := w'; result := result s;
           journal := journal s ++ [(CallBridge from_chain to_chain token amt, o)] |}).

(** [result['transactions'].append(tx)] *)
Definition append_transaction (tx : Transaction) : Py.M (State W) unit :=
  Py.modify (fun s =>
    {| world := world s;
       result := {| success := success (result s);
                    transactions := transactions (result s) ++ [tx];
                    errors := errors (result s) |};
       journal := journal s |}).

(** [result['errors'].append(str(e))] *)
Definition append_error (e : Py.Exn) : Py.M (State W) unit :=
  Py.modify (fun s =>
    {| world := world s;
       result := {| success := success (result s);
                    transactions := transactions (result s);
                    errors := errors (result s) ++ [e] |};
       journal := journal s |}).

(** [result['success'] = True] *)
Definition set_success : Py.M (State W) unit :=
  Py.modify (fun s =>
    {| world := world s;
       result := {| success := true;
                    transactions := transactions (result s);
                    errors := errors (result s) |};
       journal := journal s |}).

(** The body of the [try] block, in the three numbered steps of the source.
    Keyword arguments are evaluated from left to right before the call. *)

(** 1. Execute source chain transaction *)
Definition source_transaction (opportunity : OpportunityDict)
    : Py.M (State W) Transaction :=
  chain <- Py.getitem "source_chain" (source_chain opportunity) ;;
  dex <- Py.getitem "source_dex" (source_dex opportunity) ;;
  amt <- Py.getitem "required_capital" (required_capital opportunity) ;;
  pair <- Py.getitem "token_pair" (token_pair opportunity) ;;
  buy_tx <- await_dex_trade chain dex "buy" amt pair ;;
  append_transaction buy_tx ;;
  Py.ret buy_tx.

(** 2. Bridge assets if necessary. The result is [Some bridge_tx] exactly
    when the local [bridge_tx] gets bound, which is what
    ['bridge_tx' in locals()] tests afterwards. *)
Definition bridge_if_necessary (opportunity : OpportunityDict)
    (buy_tx : Transaction) : Py.M (State W) (option Transaction) :=
  src <- Py.getitem "source_chain" (source_chain opportunity) ;;
  tgt <- Py.getitem "target_chain" (target_chain opportunity) ;;
  if bool_decide (src <> tgt) then
    from_chain <- Py.getitem "source_chain" (source_chain opportunity) ;;
    to_chain <- Py.getitem "target_chain" (target_chain opportunity) ;;
    pair <- Py.getitem "token_pair" (token_pair opportunity) ;;
    bridge_tx <- await_bridge from_chain to_chain (fst pair)
                   (received_amount buy_tx) ;;
    append_transaction bridge_tx ;;
    Py.ret (Some bridge_tx)
  else Py.ret None.

(** 3. Execute target chain transaction *)
Definition target_transaction (opportunity : OpportunityDict)
    (buy_tx : Transaction) (bridge_tx : option Transaction)
    : Py.M (State W) unit :=
  chain <- Py.getitem "target_chain" (target_chain opportunity) ;;
  dex <- Py.getitem "target_dex" (target_dex opportunity) ;;
  let amt := match bridge_tx with
             | Some bridge_tx => received_amount bridge_tx
             | None => received_amount buy_tx
             end in
  pair <- Py.getitem "token_pair" (token_pair opportunity) ;;
  sell_tx <- await_dex_trade chain dex "sell" amt pair ;;
  append_transaction sell_tx.

Definition execute_arbitrage_try (opportunity : OpportunityDict)
    : Py.M (State W) unit :=
  buy_tx <- source_transaction opportunity ;;
  bridge_tx <- bridge_if_necessary opportunity buy_tx ;;
  target_transaction opportunity buy_tx bridge_tx ;;
  set_success.

(** [execute_arbitrage]: the [try] block, its [except Exception as e]
    handler, and [return result]. *)
Definition execute_arbitrage (opportunity : OpportunityDict)
    : Py.M (State W) Result :=
  Py.try_except (execute_arbitrage_try opportunity) append_error ;;
  Py.gets result.

End Execution.

(** The legs as the file implements them: placeholders that do not touch
    the chain. [connections] is the dict of the four configured chains;
    [self.connections[chain]] raises [KeyError] on any other chain. *)
Definition connections : gset string :=
  {[ "ethereum"; "bsc"; "polygon"; "avalanche" ]}.

Definition placeholder_dex_trade (chain dex action : string) (amt : Q)
    (pair : string * string) (w : unit) : (Py.Exn + Transaction) * unit :=
  if bool_decide (chain ∈ connections)
  then (inr (DexTrade chain dex action amt (amt * (99 # 100)) "0x..."), w)
  else (inl (Py.KeyError chain), w).

Definition placeholder_bridge (from_chain to_chain token : string) (amt : Q)
    (w : unit) : (Py.Exn + Transaction) * unit :=
  (inr (BridgeTransfer from_chain to_chain token amt (amt * (995 # 1000)) "0x..."), w).

Definition placeholder : Legs unit :=
  {| execute_dex_trade := placeholder_dex_trade;
     bridge_assets := placeholder_bridge |}.

(** What is read off a journal. *)
Definition kind_of (c : LegCall) : LegKind :=
  match c with
  | CallDexTrade _ _ action _ _ =>
      if bool_decide (action = "buy") then Acquire else Dispose
  | CallBridge _ _ _ _ => Bridge
  end.

Definition called_amount (c : LegCall) : Q :=
  match c with
  | CallDexTrade _ _ _ a _ | CallBridge _ _ _ a => a
  end.

(** The legs a trade from [src] to [tgt] consists of. *)
Definition plan (src tgt : string) : list LegKind :=
  if bool_decide (src <> tgt) then [Acquire; Bridge; Dispose]
  else [Acquire; Dispose].

(** Journal entries of legs that returned. *)
Definition returned (l : list (LegCall * Transaction))
    : list (LegCall * (Py.Exn + Transaction)) :=
  map (fun ct => (ct.1, inr ct.2)) l.

(** How a run of the [try] block from [enter w] can end.

    [Stopped e s]: [e] was raised; every leg started before the last one
    returned and its transaction was recorded; the last one, if it is in the
    journal as failed, raised [e]. *)
Definition Stopped {W} (e : Py.Exn) (s : State W) : Prop :=
  success (result s) = false /\ errors (result s) = [] /\
  exists l,
    transactions (result s) = map snd l /\
    (journal s = returned l \/ exists c, journal s = returned l ++ [(c, inl e)]).

(** [Completed opportunity w s]: all keys were there and every leg
    returned; [s] is the state after [result['success'] = True]. *)
Inductive Completed {W} {legs : Legs W} (opportunity : OpportunityDict) (w : W)
    (s : State W) : Prop :=
| completed_same_chain chain sdex tdex pair cap buy_tx w1 sell_tx :
    source_chain opportunity = Some chain ->
    target_chain opportunity = Some chain ->
    source_dex opportunity = Some sdex ->
    target_dex opportunity = Some tdex ->
    token_pair opportunity = Some pair ->
    required_capital opportunity = Some cap ->
    execute_dex_trade chain sdex "buy" cap pair w = (inr buy_tx, w1) ->
    execute_dex_trade chain tdex "sell" (received_amount buy_tx) pair w1
      = (inr sell_tx, world s) ->
    journal s =
      returned
        [ (CallDexTrade chain sdex "buy" cap pair, buy_tx);
          (CallDexTrade chain tdex "sell" (received_amount buy_tx) pair,
           sell_tx) ] ->
    result s =
      {| success := true; transactions := [buy_tx; sell_tx]; errors := [] |} ->
    Completed opportunity w s
| completed_cross_chain src tgt sdex tdex pair cap buy_tx w1 bridge_tx w2 sell_tx :
    source_chain opportunity = Some src ->
    target_chain opportunity = Some tgt ->
    src <> tgt ->
    source_dex opportunity = Some sdex ->
    target_dex opportunity = Some tdex ->
    token_pair opportunity = Some pair ->
    required_capital opportunity = Some cap ->
    execute_dex_trade src sdex "buy" cap pair w = (inr buy_tx, w1) ->
    bridge_assets src tgt pair.1 (received_amount buy_tx) w1
      = (inr bridge_tx, w2) ->
    execute_dex_trade tgt tdex "sell" (received_amount bridge_tx) pair w2
      = (inr sell_tx, world s) ->
    journal s =
      returned
        [ (CallDexTrade src sdex "buy" cap pair, buy_tx);
          (CallBridge src tgt pair.1 (received_amount buy_tx), bridge_tx);
          (CallDexTrade tgt tdex "sell" (received_amount bridge_tx) pair,
           sell_tx) ] ->
    result s =
      {| success := true; transactions := [buy_tx; bridge_tx; sell_tx];
         errors := [] |} ->
    Completed opportunity w s.

(** Legs for the examples: the placeholder venues with a bridge that times
    out, and an opportunity between two configured chains. *)
Definition bridge_times_out : Legs unit :=
  {| execute_dex_trade := placeholder_dex_trade;
     bridge_assets := fun _ _ _ _ w => (inl "bridge timeout", w) |}.

Definition weth_usdt (capital : Q) : OpportunityDict :=
  {| source_chain := Some "ethereum"; source_dex := Some "uniswap";
     target_chain := Some "polygon"; target_dex := Some "quickswap";
     token_pair := Some ("WETH", "USDT");
     required_capital := Some capital |}.

(** The two runs used as examples. *)
Definition timeout_run : (Py.Exn + Result) * State unit :=
  Eval vm_compute in
    execute_arbitrage (legs := bridge_times_out) (weth_usdt 10) (enter tt).

Definition placeholder_run : (Py.Exn + Result) * State unit :=
  Eval vm_compute in
    execute_arbitrage (legs := placeholder) (weth_usdt 10) (enter tt).

End Blockchain.

(** ** [app/utils/ai_strategy.py] *)

Module Strategy.

(** The dict [find_opportunities] hands to [analyze_opportunity]. *)
Record OpportunityData := {
  source_chain : string;
  target_chain : string;
  token_pair : string * string;
  estimated_profit_usd : Q;
  profit_percentage : Q;
  required_capital : Q
}.

(** The dict [analyze_opportunity] returns. *)
Record Analysis := {
  analysis : string;
  risk_score : Q;
  recommendation : string;
  confidence : Q;
  timestamp : string
}.

(** Values found in the dicts parsed out of a model response. *)
Inductive Value := Num (q : Q) | Str (s : string).

(** A step of an execution path, e.g.
    [{"action": "buy", "chain": "ethereum", "dex": "uniswap"}]. *)
Definition PathStep : Type := list (string * string).

(** The language-model service, seen from the module.
    - [chat_analysis]: the [openai.ChatCompletion.acreate] call of
      [analyze_opportunity] followed by [response.choices[0].message.content];
      the prompt is a function of the opportunity data.
    - [text_sentiment]: the [openai.Completion.create] call of
      [_analyze_text_sentiment] followed by
      [float(response.choices[0].text.strip())]: the number the model
      answered, or whatever was raised on the way.
    - [now_isoformat]: [datetime.now().isoformat()].
    - [optimize_execution_path], [predict_price_movement] and
      [analyze_market_sentiment] rest on helpers the file leaves
      unimplemented or undefined ([_get_historical_data],
      [_parse_prediction_response], [_parse_sentiment_response], ...) and
      build their prompt before entering their [try], so each is taken
      whole: it returns a dict, returns [None] (what its [except] branch
      does when the call to the service fails), or raises. *)
Class Advisory (W : Type) := {
  chat_analysis : OpportunityData -> W -> (Py.Exn + string) * W;
  text_sentiment : string -> W -> (Py.Exn + Q) * W;
  now_isoformat : W -> string;
  optimize_execution_path :
    list PathStep -> W -> (Py.Exn + option (list PathStep)) * W;
  predict_price_movement :
    string -> W -> (Py.Exn + option (gmap string Value)) * W;
  analyze_market_sentiment :
    string -> W -> (Py.Exn + option (gmap string Value)) * W
}.

(** The attributes set by [AIStrategy.__init__] that the methods read. *)
Record AIStrategy := {
  confidence_threshold : Q
}.

Definition init : AIStrategy := {| confidence_threshold := 85 # 100 |}.

Section Methods.
Context {W : Type} {advisory : Advisory W}.

Local Open Scope py_scope.

(** [_analyze_text_sentiment]: the bare [except:] turns every failure of
    the call or of the parsing into the neutral [0.5]. *)
Definition _analyze_text_sentiment (text : string) : Py.M W Q :=
  Py.try_except
    (sentiment_score <- text_sentiment text ;;
     Py.ret ((sentiment_score + 1) / 2)%Q)
    (fun _ => Py.ret (1 # 2)).

(** [_calculate_risk_score] *)
Definition _calculate_risk_score (analysis : string)
    (opportunity_data : OpportunityData) : Py.M W Q :=
  let base_score := (1 # 2)%Q in
  let profit_score :=
    Py.min (profit_percentage opportunity_data / 10)%Q (3 # 10) in
  let capital_risk :=
    Py.max 0 ((2 # 10) - required_capital opportunity_data / 100000)%Q in
  sentiment_score <- _analyze_text_sentiment analysis ;;
  Py.ret
    (Py.min (base_score + profit_score + capital_risk + sentiment_score)%Q 1).

(** [analyze_opportunity]: [None] when anything in the [try] block raises. *)
Definition analyze_opportunity (self : AIStrategy)
    (opportunity_data : OpportunityData) : Py.M W (option Analysis) :=
  Py.try_except
    (analysis <- chat_analysis opportunity_data ;;
     risk_score <- _calculate_risk_score analysis opportunity_data ;;
     now <- Py.gets now_isoformat ;;
     Py.ret (Some
       {| analysis := analysis;
          risk_score := risk_score;
          recommendation :=
            if Py.ge risk_score (confidence_threshold self)
            then "execute" else "skip";
          confidence := risk_score;
          timestamp := now |}))
    (fun _ => Py.ret None).

End Methods.

(** An advisory service for the examples, over a world that is just the
    clock: the analysis call and the sentiment call each have a fixed
    outcome, the other three methods return [None]. *)
Definition scripted (chat : Py.Exn + string) (sentiment : Py.Exn + Q)
    : Advisory Q :=
  {| chat_analysis := fun _ now => (chat, now);
     text_sentiment := fun _ now => (sentiment, now);
     now_isoformat := fun _ => "2024-03-14T00:00:00";
     optimize_execution_path := fun _ now => (inr None, now);
     predict_price_movement := fun _ now => (inr None, now);
     analyze_market_sentiment := fun _ now => (inr None, now) |}.

End Strategy.

(** ** [app/utils/arbitrage_finder.py] *)

Module Finder.

(** The dataclass [ArbitrageOpportunity]. [gas_costs] keeps the order of the
    dict, which is the order [sum] adds in. *)
Record ArbitrageOpportunity := {
  source_chain : string;
  source_dex : string;
  target_chain : string;
  target_dex : string;
  token_pair : string * string;
  profit_percentage : Q;
  estimated_profit_usd : Q;
  required_capital : Q;
  execution_path : list Strategy.PathStep;
  gas_costs : list (string * Q);
  timestamp : Q;
  ai_analysis : option Strategy.Analysis
}.

(** [opp.execution_path = p] and [opp.ai_analysis = a] *)
Definition set_execution_path (opp : ArbitrageOpportunity)
    (p : list Strategy.PathStep) : ArbitrageOpportunity :=
  {| source_chain := source_chain opp; source_dex := source_dex opp;
     target_chain := target_chain opp; target_dex := target_dex opp;
     token_pair := token_pair opp;
     profit_percentage := profit_percentage opp;
     estimated_profit_usd := estimated_profit_usd opp;
     required_capital := required_capital opp;
     execution_path := p;
     gas_costs := gas_costs opp; timestamp := timestamp opp;
     ai_analysis := ai_analysis opp |}.

Definition set_ai_analysis (opp : ArbitrageOpportunity)
    (a : option Strategy.Analysis) : ArbitrageOpportunity :=
  {| source_chain := source_chain opp; source_dex := source_dex opp;
     target_chain := target_chain opp; target_dex := target_dex opp;
     token_pair := token_pair opp;
     profit_percentage := profit_percentage opp;
     estimated_profit_usd := estimated_profit_usd opp;
     required_capital := required_capital opp;
     execution_path := execution_path opp;
     gas_costs := gas_costs opp; timestamp := timestamp opp;
     ai_analysis := a |}.

(** Used in the statements: the same opportunity with another capital. *)
Definition with_required_capital (opp : ArbitrageOpportunity) (c : Q)
    : ArbitrageOpportunity :=
  {| source_chain := source_chain opp; source_dex := source_dex opp;
     target_chain := target_chain opp; target_dex := target_dex opp;
     token_pair := token_pair opp;
     profit_percentage := profit_percentage opp;
     estimated_profit_usd := estimated_profit_usd opp;
     required_capital := c;
     execution_path := execution_path opp;
     gas_costs := gas_costs opp; timestamp := timestamp opp;
     ai_analysis := ai_analysis opp |}.

(** The attributes set by [ArbitrageFinder.__init__]. *)
Record ArbitrageFinder := {
  min_profit_threshold : Q;
  max_gas_usage : Z;
  slippage_tolerance : Q;
  ai_strategy : Strategy.AIStrategy
}.

Definition init : ArbitrageFinder :=
  {| min_profit_threshold := 5 # 10;
     max_gas_usage := 500000;
     slippage_tolerance := 5 # 1000;
     ai_strategy := Strategy.init |}.

(** The calls that reach the advisory service, as they are journaled. *)
Inductive Consulted :=
| AnalyzeOpportunity (data : Strategy.OpportunityData)
| OptimizeExecutionPath (paths : list Strategy.PathStep)
| PredictPriceMovement (token : string)
| AnalyzeMarketSentiment (token : string).

(** What the finder needs besides the advisory service: the scan for raw
    opportunities (a placeholder in the file, given below) and the pause
    between two cycles. *)
Class Scanner (W : Type) := {
  _find_raw_opportunities : W -> (Py.Exn + list ArbitrageOpportunity) * W;
  sleep : Q -> W -> W
}.

(** The state the finder runs in: the outside world and, for the statements
    only, the journal of advisory calls and the list of opportunities handed
    to the callback of [monitor_opportunities]. *)
Record State (W : Type) := {
  world : W;
  consulted : list Consulted;
  emitted : list ArbitrageOpportunity
}.
Arguments world {W}.
Arguments consulted {W}.
Arguments emitted {W}.

Section Methods.
Context {W : Type} {advisory : Strategy.Advisory W} {scanner : Scanner W}.

Local Open Scope py_scope.

(** Run a computation on the outside world. *)
Definition on_world {A} (m : Py.M W A) : Py.M (State W) A :=
  fun s =>
    let '(o, w') := m (world s) in
    (o, {| world := w'; consulted := consulted s; emitted := emitted s |}).

(** [await self.ai_strategy.<method>(...)]: journal the call, then run it. *)
Definition consult {A} (c : Consulted) (m : Py.M W A) : Py.M (State W) A :=
  fun s =>
    let '(o, w') := m (world s) in
    (o, {| world := w'; consulted := consulted s ++ [c];
           emitted := emitted s |}).

(** [await callback(opp)] *)
Definition await_callback
    (callback : ArbitrageOpportunity -> W -> (Py.Exn + unit) * W)
    (opp : ArbitrageOpportunity) : Py.M (State W) unit :=
  fun s =>
    let '(o, w') := callback opp (world s) in
    (o, {| world := w'; consulted := consulted s;
           emitted := emitted s ++ [opp] |}).

(** The dict literal passed to [analyze_opportunity]. *)
Definition opportunity_data (opp : ArbitrageOpportunity)
    : Strategy.OpportunityData :=
  {| Strategy.source_chain := source_chain opp;
     Strategy.target_chain := target_chain opp;
     Strategy.token_pair := token_pair opp;
     Strategy.estimated_profit_usd := estimated_profit_usd opp;
     Strategy.profit_percentage := profit_percentage opp;
     Strategy.required_capital := required_capital opp |}.

(** Truth value of [ai_analysis and ai_analysis['recommendation'] == 'execute'] *)
Definition recommended (ai_analysis : option Strategy.Analysis) : bool :=
  match ai_analysis with
  | Some a => bool_decide (Strategy.recommendation a = "execute")
  | None => false
  end.

(** Truth value of an optional list. *)
Definition truthy_path (p : option (list Strategy.PathStep)) : bool :=
  match p with
  | Some (_ :: _) => true
  | _ => false
  end.

(** The [for opp in raw_opportunities] loop of [find_opportunities];
    [opportunities] is the list built so far. *)
Fixpoint analyze_each (self : ArbitrageFinder)
    (raw_opportunities opportunities : list ArbitrageOpportunity)
    : Py.M (State W) (list ArbitrageOpportunity) :=
  match raw_opportunities with
  | [] => Py.ret opportunities
  | opp :: rest =>
      ai_analysis <-
        consult (AnalyzeOpportunity (opportunity_data opp))
          (Strategy.analyze_opportunity (ai_strategy self)
             (opportunity_data opp)) ;;
      if recommended ai_analysis then
        optimized_path <-
          consult (OptimizeExecutionPath (execution_path opp))
            (Strategy.optimize_execution_path (execution_path opp)) ;;
        let opp :=
          if truthy_path optimized_path
          then set_execution_path opp (default [] optimized_path)
          else opp in
        let opp := set_ai_analysis opp ai_analysis in
        analyze_each self rest (opportunities ++ [opp])
      else analyze_each self rest opportunities
  end.

(** [find_opportunities] *)
Definition find_opportunities (self : ArbitrageFinder)
    : Py.M (State W) (list ArbitrageOpportunity) :=
  raw_opportunities <- on_world _find_raw_opportunities ;;
  analyze_each self raw_opportunities [].

(** Truth value of a dict. *)
Definition truthy_dict (d : option (gmap string Strategy.Value)) : bool :=
  match d with
  | Some d => negb (Nat.eqb (size d) 0)
  | None => false
  end.

(** [price_prediction and price_prediction.get('direction') == 'down'] *)
Definition predicts_down (d : option (gmap string Strategy.Value)) : bool :=
  truthy_dict d &&
  match d ≫= (.!! "direction") with
  | Some (Strategy.Str s) => bool_decide (s = "down")
  | _ => false
  end.

(** [sentiment and sentiment.get('score', 0) < 0.5]; comparing a string
    with a float raises [TypeError]. *)
Definition sentiment_low (d : option (gmap string Strategy.Value))
    : Py.M (State W) bool :=
  if truthy_dict d then
    match d ≫= (.!! "score") with
    | None => Py.ret (Py.lt 0 (1 # 2))
    | Some (Strategy.Num q) => Py.ret (Py.lt q (1 # 2))
    | Some (Strategy.Str _) =>
        Py.raise "'<' not supported between instances of 'str' and 'float'"
    end
  else Py.ret false.

(** The part of [validate_opportunity] under [if opportunity.ai_analysis:],
    entered with the analysis at hand. *)
Definition ai_validation (a : Strategy.Analysis)
    (opportunity : ArbitrageOpportunity) : Py.M (State W) bool :=
  if Py.lt (Strategy.risk_score a) (7 # 10) then Py.ret false
  else
    price_prediction <-
      consult (PredictPriceMovement (fst (token_pair opportunity)))
        (Strategy.predict_price_movement (fst (token_pair opportunity))) ;;
    if predicts_down price_prediction then Py.ret false
    else
      sentiment <-
        consult (AnalyzeMarketSentiment (fst (token_pair opportunity)))
          (Strategy.analyze_market_sentiment (fst (token_pair opportunity))) ;;
      low <- sentiment_low sentiment ;;
      if low then Py.ret false else Py.ret true.

(** [validate_opportunity] *)
Definition validate_opportunity (self : ArbitrageFinder)
    (opportunity : ArbitrageOpportunity) : Py.M (State W) bool :=
  (* Basic validation *)
  if Py.lt (profit_percentage opportunity) (min_profit_threshold self)
  then Py.ret false
  else if Py.gt (Py.sum (map snd (gas_costs opportunity)))
            (estimated_profit_usd opportunity)
  then Py.ret false
  else
    (* AI-based validation *)
    match ai_analysis opportunity with
    | Some a => ai_validation a opportunity
    | None => Py.ret true
    end.

(** The [for opp in opportunities] loop of [monitor_opportunities]. *)
Fixpoint offer_each (self : ArbitrageFinder)
    (callback : ArbitrageOpportunity -> W -> (Py.Exn + unit) * W)
    (opportunities : list ArbitrageOpportunity) : Py.M (State W) unit :=
  match opportunities with
  | [] => Py.ret tt
  | opp :: rest =>
      ok <- validate_opportunity self opp ;;
      (if ok then await_callback callback opp else Py.ret tt) ;;
      offer_each self callback rest
  end.

(** [monitor_opportunities]: the [while True] loop, cut after [cycles]
    rounds. *)
Fixpoint monitor_opportunities (cycles : nat) (self : ArbitrageFinder)
    (callback : ArbitrageOpportunity -> W -> (Py.Exn + unit) * W)
    : Py.M (State W) unit :=
  match cycles with
  | O => Py.ret tt
  | S cycles =>
      opportunities <- find_opportunities self ;;
      offer_each self callback opportunities ;;
      on_world (Py.modify (sleep 1)) ;;
      monitor_opportunities cycles self callback
  end.

(** Used in the statements. [emits P m]: running [m] only appends to the
    list of emitted opportunities, and what it appends satisfies [P]. *)
Definition emits {A} (P : ArbitrageOpportunity -> Prop)
    (m : Py.M (State W) A) : Prop :=
  forall s, exists new,
    emitted (m s).2 = emitted s ++ new /\ Forall P new.

(** What is known of an opportunity handed to the callback: it is not under
    the profit threshold, and a call of [validate_opportunity] on it
    returned [True]. *)
Definition validated (self : ArbitrageFinder) (opp : ArbitrageOpportunity)
    : Prop :=
  (min_profit_threshold self <= profit_percentage opp)%Q /\
  exists s s' : State W, validate_opportunity self opp s = (inr true, s').

End Methods.

(** The scan as the file has it: one sample opportunity, stamped with the
    current time (the state of the world is the clock). *)
Definition sample_opportunity (now : Q) : ArbitrageOpportunity :=
  {| source_chain := "ethereum";
     source_dex := "uniswap";
     target_chain := "polygon";
     target_dex := "quickswap";
     token_pair := ("WETH", "USDT");
     profit_percentage := 12 # 10;
     estimated_profit_usd := 150;
     required_capital := 10000;
     execution_path :=
       [ [("action", "buy"); ("chain", "ethereum"); ("dex", "uniswap")];
         [("action", "bridge"); ("from_chain", "ethereum");
          ("to_chain", "polygon")];
         [("action", "sell"); ("chain", "polygon"); ("dex", "quickswap")] ];
     gas_costs := [("ethereum", 5 # 100); ("polygon", 1 # 1000)];
     timestamp := now;
     ai_analysis := None |}.

Definition placeholder_scanner : Scanner Q :=
  {| _find_raw_opportunities := fun now => (inr [sample_opportunity now], now);
     sleep := fun seconds now => (now + seconds)%Q |}.

(** Opportunities for the examples: the sample with a profit percentage
    under the default threshold, with an estimated profit under its gas
    costs, and with a capital of a billion (the largest trade size the
    dashboard lets one enter is a million). *)
Definition low_profit : ArbitrageOpportunity :=
  {| source_chain := "ethereum"; source_dex := "uniswap";
     target_chain := "polygon"; target_dex := "quickswap";
     token_pair := ("WETH", "USDT");
     profit_percentage := 3 # 10;
     estimated_profit_usd := 150;
     required_capital := 10000;
     execution_path := [];
     gas_costs := [("ethereum", 5 # 100); ("polygon", 1 # 1000)];
     timestamp := 0;
     ai_analysis := None |}.

Definition thin_margin : ArbitrageOpportunity :=
  {| source_chain := "ethereum"; source_dex := "uniswap";
     target_chain := "polygon"; target_dex := "quickswap";
     token_pair := ("WETH", "USDT");
     profit_percentage := 12 # 10;
     estimated_profit_usd := 1 # 100;
     required_capital := 10000;
     execution_path := [];
     gas_costs := [("ethereum", 5 # 100); ("polygon", 1 # 1000)];
     timestamp := 0;
     ai_analysis := None |}.


(** Advisory services for the examples: one whose analysis call times out,
    one whose sentiment call times out, one whose sentiment call answers
    [-3]. *)
Definition analysis_times_out : Strategy.Advisory Q :=
  Strategy.scripted (inl "timeout") (inr 0%Q).

Definition sentiment_times_out : Strategy.Advisory Q :=
  Strategy.scripted (inr "analysis") (inl "timeout").

Definition sentiment_out_of_range : Strategy.Advisory Q :=
  Strategy.scripted (inr "analysis") (inr (-3)%Q).

Definition service_answers : Strategy.Advisory Q :=
  Strategy.scripted (inr "analysis") (inr (8 # 10)%Q).


(** The state on entry, nothing journaled yet. *)
Definition enter {W} (w : W) : State W :=
  {| world := w; consulted := []; emitted := [] |}.

(** A callback for the examples. *)
Definition accept_all (opp : ArbitrageOpportunity) (now : Q)
    : (Py.Exn + unit) * Q :=
  (inr tt, now).

End Finder.

(** ** [app/utils/price_fetcher.py] *)

Module Prices.

(** The attribute [supported_dexes], in the order of the dict. *)
Record PriceFetcher := {
  supported_dexes : list (string * list string)
}.

Definition init : PriceFetcher :=
  {| supported_dexes :=
       [ ("ethereum", ["uniswap"; "sushiswap"]);
         ("bsc", ["pancakeswap"]);
         ("polygon", ["quickswap"]);
         ("avalanche", ["traderjoe"]) ] |}.

(** [get_dex_price(dex, token_pair)] as a quote source: a price, [None], or
    an exception. The body in the file is a placeholder that returns [0.0];
    its own [except Exception] answers [None], so that an exception reaches
    [gather] only if it escapes that handler. *)
Class Quotes (W : Type) := {
  get_dex_price :
    string -> string * string -> W -> (Py.Exn + option Q) * W
}.

Definition placeholder_quotes : Quotes unit :=
  {| get_dex_price := fun _ _ w => (inr (Some 0%Q), w) |}.

Section Methods.
Context {W : Type} {quotes : Quotes W}.

(** [asyncio.gather] with [return_exceptions=True]: the results come in
    the order of the tasks, an exception standing for the task that raised
    it. The tasks are run one after the other. *)
Fixpoint gather {A} (tasks : list (Py.M W A)) (w : W)
    : list (Py.Exn + A) * W :=
  match tasks with
  | [] => ([], w)
  | task :: rest =>
      let '(o, w1) := task w in
      let '(os, w2) := gather rest w1 in
      (o :: os, w2)
  end.

(** The first pair of loops: one task per dex of each chain. *)
Definition tasks_of (self : PriceFetcher) (token_pair : string * string)
    : list (Py.M W (option Q)) :=
  flat_map
    (fun '(_, dexes) => map (fun dex => get_dex_price dex token_pair) dexes)
    (supported_dexes self).

(** [results[idx]] *)
Definition index {A} (results : list A) (idx : nat) : Py.Exn + A :=
  match results !! idx with
  | Some r => inr r
  | None => inl "list index out of range"
  end.

(** The inner [for dex in dexes] loop of the second pair of loops; [idx] and
    [prices] are threaded through. *)
Fixpoint collect_dexes (chain : string) (dexes : list string)
    (results : list (Py.Exn + option Q)) (idx : nat)
    (prices : gmap string (option Q))
    : Py.Exn + nat * gmap string (option Q) :=
  match dexes with
  | [] => inr (idx, prices)
  | dex :: rest =>
      match index results idx with
      | inl e => inl e
      | inr r =>
          let prices :=
            match r with
            | inl _ => prices
            | inr price => <[chain +:+ "_" +:+ dex := price]> prices
            end in
          collect_dexes chain rest results (S idx) prices
      end
  end.

(** The outer [for chain, dexes in self.supported_dexes.items()] loop. *)
Fixpoint collect_chains (chains : list (string * list string))
    (results : list (Py.Exn + option Q)) (idx : nat)
    (prices : gmap string (option Q))
    : Py.Exn + nat * gmap string (option Q) :=
  match chains with
  | [] => inr (idx, prices)
  | (chain, dexes) :: rest =>
      match collect_dexes chain dexes results idx prices with
      | inl e => inl e
      | inr (idx, prices) => collect_chains rest results idx prices
      end
  end.

(** [fetch_all_prices] *)
Definition fetch_all_prices (self : PriceFetcher)
    (token_pair : string * string) : Py.M W (gmap string (option Q)) :=
  fun w =>
    let '(results, w') := gather (tasks_of self token_pair) w in
    match collect_chains (supported_dexes self) results 0 ∅ with
    | inl e => (inl e, w')
    | inr (_, prices) => (inr prices, w')
    end.

End Methods.

(** The (chain, venue) pairs queried, in task order, and the key of a pair
    in the returned dict. *)
Definition sources (self : PriceFetcher) : list (string * string) :=
  flat_map (fun '(chain, dexes) => map (fun dex => (chain, dex)) dexes)
    (supported_dexes self).

Definition market (source : string * string) : string :=
  source.1 +:+ "_" +:+ source.2.

(** The two nested loops seen as one loop over the sources. *)
Fixpoint collect_sources (srcs : list (string * string))
    (results : list (Py.Exn + option Q)) (idx : nat)
    (prices : gmap string (option Q))
    : Py.Exn + nat * gmap string (option Q) :=
  match srcs with
  | [] => inr (idx, prices)
  | src :: rest =>
      match index results idx with
      | inl e => inl e
      | inr r =>
          let prices :=
            match r with
            | inl _ => prices
            | inr price => <[market src := price]> prices
            end in
          collect_sources rest results (S idx) prices
      end
  end.

(** Quote sources for the examples: the world counts the calls, and the
    second call (sushiswap on ethereum) raises. *)
Definition second_call_fails : Quotes nat :=
  {| get_dex_price := fun dex _ n =>
       (if Nat.eqb n 1 then inl "connection refused" else inr (Some 100%Q),
        S n) |}.

End Prices.

(** ** [app/components/dashboard.py] *)

Module Dashboard.

(** [st.session_state] as set up by [ArbitrageBot.__init__]. Entries of the
    history are the opportunity with the status it ended in. *)
Record SessionState := {
  opportunities : list Finder.ArbitrageOpportunity;
  active_trades : list Finder.ArbitrageOpportunity;
  historical_trades : list (Finder.ArbitrageOpportunity * string)
}.

Definition init : SessionState :=
  {| opportunities := []; active_trades := []; historical_trades := [] |}.

(** What is shown to the user. *)
Inductive Shown :=
| Success (message : string)
| Error (message : string).

(** [execute_opportunity(bot, opportunity)]: [bot] is not used. *)
Definition execute_opportunity (opportunity : Finder.ArbitrageOpportunity)
    (st : SessionState) : SessionState * list Shown :=
  ({| opportunities := opportunities st;
      active_trades := active_trades st ++ [opportunity];
      historical_trades := historical_trades st |},
   [Success "Trade executed successfully!"]).

(** Submitting the same opportunity a second time while the first entry is
    still among the active trades. *)
Definition submit_twice (opportunity : Finder.ArbitrageOpportunity)
    (st : SessionState) : SessionState * list Shown :=
  let '(st1, shown1) := execute_opportunity opportunity st in
  let '(st2, shown2) := execute_opportunity opportunity st1 in
  (st2, shown1 ++ shown2).

(** The property a guard on in-flight trades would give: of two
    submissions of one opportunity, one becomes a trade and the other is
    turned down. *)
Definition one_trade_one_rejection (opportunity : Finder.ArbitrageOpportunity)
    (st : SessionState) : Prop :=
  let '(st2, shown) := submit_twice opportunity st in
  length (active_trades st2) = S (length (active_trades st)) /\
  exists message, Error message ∈ shown.

(** No two active trades carry the same fingerprint. *)
Definition single_in_flight {K} (fingerprint : Finder.ArbitrageOpportunity -> K)
    (st : SessionState) : Prop :=
  forall i j t1 t2,
    active_trades st !! i = Some t1 -> active_trades st !! j = Some t2 ->
    fingerprint t1 = fingerprint t2 -> i = j.

(** Modelled from the spec: the fingerprint of an opportunity, "a
    deterministic key derived from (source chain, target chain, token pair,
    rounded price bucket)". The sources compute no such key; the price
    bucket is a function of the opportunity left open here. *)
Definition fingerprint (bucket : Finder.ArbitrageOpportunity -> Z)
    (opp : Finder.ArbitrageOpportunity) : string * string * (string * string) * Z :=
  (Finder.source_chain opp, Finder.target_chain opp, Finder.token_pair opp,
   bucket opp).

End Dashboard.

(** * More of the code

    The rest of the modules follows the same conventions; it reuses the
    definitions above and adds the functions they leave out. *)

(** ** [execute_arbitrage]: what is read off a run *)

Module Execution.
Import Blockchain.

(** The transactions of the legs of a journal that returned, in order. *)
Definition receipts (j : list (LegCall * (Py.Exn + Transaction)))
    : list Transaction :=
  omap (fun ev => match ev.2 with inr tx => Some tx | inl _ => None end) j.

(** The first key absent among those read before the purchase, in the order
    they are read. *)
Definition first_missing_source_key (opportunity : OpportunityDict)
    : option string :=
  match source_chain opportunity, source_dex opportunity,
        required_capital opportunity, token_pair opportunity with
  | None, _, _, _ => Some "source_chain"
  | _, None, _, _ => Some "source_dex"
  | _, _, None, _ => Some "required_capital"
  | _, _, _, None => Some "token_pair"
  | _, _, _, _ => None
  end.

(** Opportunities for the examples: one without [source_dex], one without
    [target_dex]. *)
Definition no_source_dex : OpportunityDict :=
  {| source_chain := Some "ethereum"; source_dex := None;
     target_chain := Some "polygon"; target_dex := Some "quickswap";
     token_pair := Some ("WETH", "USDT");
     required_capital := Some 10%Q |}.

Definition no_target_dex : OpportunityDict :=
  {| source_chain := Some "ethereum"; source_dex := Some "uniswap";
     target_chain := Some "polygon"; target_dex := None;
     token_pair := Some ("WETH", "USDT");
     required_capital := Some 10%Q |}.

End Execution.

(** ** [app/utils/arbitrage_finder.py]: [simulate_execution] *)

Module Simulation.
Import Finder.


(** [step[k]] and [step.get(k)] on a step given by its items (a key occurs
    once). *)
Definition step_get (step : Strategy.PathStep) (k : string) : option string :=
  (list_to_map step : gmap string string) !! k.

(** The dicts built by [simulate_execution]. *)
Record SimulatedStep := {
  action : string;
  status : string;
  details : string
}.

Record Insights := {
  risk_score : Q;
  analysis : string;
  confidence : Q
}.

Record Simulation := {
  success : bool;
  expected_profit : Q;
  risks : list string;
  steps : list SimulatedStep;
  ai_insights : option Insights
}.

(** The [for step in opportunity.execution_path] loop; [steps] is
    [simulation_result["steps"]] so far. *)
Fixpoint simulate_steps (execution_path : list Strategy.PathStep)
    (steps : list SimulatedStep) : Py.Exn + list SimulatedStep :=
  match execution_path with
  | [] => inr steps
  | step :: rest =>
      match step_get step "action" with
      | None => inl (Py.KeyError "action")
      | Some act =>
          simulate_steps rest
            (steps ++
             [{| action := act;
                 status := "simulated";
                 details := "Simulated " +:+ act +:+ " on "
                            +:+ default "" (step_get step "chain") |}])
      end
  end.

(** [simulate_execution]; it awaits nothing. *)
Definition simulate_execution (opportunity : ArbitrageOpportunity)
    : Py.Exn + Simulation :=
  let ai_insights :=
    match ai_analysis opportunity with
    | Some a =>
        Some {| risk_score := Strategy.risk_score a;
                analysis := Strategy.analysis a;
                confidence := Strategy.confidence a |}
    | None => None
    end in
  match simulate_steps (execution_path opportunity) [] with
  | inl e => inl e
  | inr steps =>
      inr {| success := true;
             expected_profit := estimated_profit_usd opportunity;
             risks := [];
             steps := steps;
             ai_insights := ai_insights |}
  end.






End Simulation.

(** ** [app/utils/price_fetcher.py]: [monitor_price_changes] *)

Module PriceMonitor.
Import Prices.

(** A dict of prices with its insertion order, as [items()] walks it. *)
Definition Items : Type := list (string * option Q).

(** [d[k] = v]: a key that is there keeps its place. *)
Fixpoint dict_set (d : Items) (k : string) (v : option Q) : Items :=
  match d with
  | [] => [(k, v)]
  | (k', v') :: rest =>
      if decide (k' = k) then (k', v) :: rest
      else (k', v') :: dict_set rest k v
  end.

(** [d[k]], [None] standing for [k not in d]. *)
Fixpoint dict_get (d : Items) (k : string) : option (option Q) :=
  match d with
  | [] => None
  | (k', v') :: rest => if decide (k' = k) then Some v' else dict_get rest k
  end.

(** The second pair of loops of [fetch_all_prices], on the sources in
    order, keeping the order of the dict. *)
Fixpoint collect_items (srcs : list (string * string))
    (results : list (Py.Exn + option Q)) (idx : nat) (prices : Items)
    : Py.Exn + nat * Items :=
  match srcs with
  | [] => inr (idx, prices)
  | src :: rest =>
      match index results idx with
      | inl e => inl e
      | inr r =>
          let prices :=
            match r with
            | inl _ => prices
            | inr price => dict_set prices (market src) price
            end in
          collect_items rest results (S idx) prices
      end
  end.

(** The pause between two rounds. *)
Class Pause (W : Type) := {
  sleep : Q -> W -> W
}.

(** The state [monitor_price_changes] runs in: the outside world and, for
    the statements only, the calls made to the callback so far (market,
    previous price, price). *)
Record Monitoring (W : Type) := {
  world : W;
  notified : list (string * Q * Q)
}.
Arguments world {W}.
Arguments notified {W}.

(** The exceptions the loop body raises itself, as [str(e)] gives them; of
    the [TypeError] the part that does not depend on the operands. *)
Definition ZeroDivisionError : Py.Exn := "float division by zero".
Definition TypeError_sub : Py.Exn :=
  "unsupported operand type(s) for -".

Section Monitor.
Context {W : Type} {quotes : Quotes W} {pause : Pause W}.

Local Open Scope py_scope.

(** [fetch_all_prices], keeping the order of the dict. *)
Definition fetch_all_items (self : PriceFetcher)
    (token_pair : string * string) : Py.M W Items :=
  fun w =>
    let '(results, w') := gather (tasks_of self token_pair) w in
    match collect_items (sources self) results 0 [] with
    | inl e => (inl e, w')
    | inr (_, prices) => (inr prices, w')
    end.

Definition on_world {A} (m : Py.M W A) : Py.M (Monitoring W) A :=
  fun s =>
    let '(o, w') := m (world s) in
    (o, {| world := w'; notified := notified s |}).

(** [await callback(market, previous, price)] *)
Definition await_callback
    (callback : string -> Q -> Q -> W -> (Py.Exn + unit) * W)
    (market : string) (previous price : Q) : Py.M (Monitoring W) unit :=
  fun s =>
    let '(o, w') := callback market previous price (world s) in
    (o, {| world := w';
           notified := notified s ++ [(market, previous, price)] |}).

(** The body of the [for market, price in current_prices.items()] loop.
    Subtracting with [None] raises [TypeError]; dividing by a previous
    price of zero raises [ZeroDivisionError]. *)
Definition compare
    (callback : string -> Q -> Q -> W -> (Py.Exn + unit) * W)
    (previous_prices : Items) (market : string) (price : option Q)
    : Py.M (Monitoring W) unit :=
  match dict_get previous_prices market with
  | None => Py.ret tt
  | Some previous =>
      match price, previous with
      | Some price, Some previous =>
          if Qeq_bool previous 0 then Py.raise ZeroDivisionError
          else
            let change := ((price - previous) / previous)%Q in
            if Py.gt (Qabs change) (1 # 100)
            then await_callback callback market previous price
            else Py.ret tt
      | _, _ => Py.raise TypeError_sub
      end
  end.

Fixpoint compare_each
    (callback : string -> Q -> Q -> W -> (Py.Exn + unit) * W)
    (previous_prices current_prices : Items) : Py.M (Monitoring W) unit :=
  match current_prices with
  | [] => Py.ret tt
  | (market, price) :: rest =>
      compare callback previous_prices market price ;;
      compare_each callback previous_prices rest
  end.

(** The [while True] loop, cut after [cycles] rounds, entered with
    [previous_prices]. *)
Fixpoint monitor_rounds (cycles : nat) (self : PriceFetcher)
    (token_pair : string * string)
    (callback : string -> Q -> Q -> W -> (Py.Exn + unit) * W)
    (previous_prices : Items) : Py.M (Monitoring W) unit :=
  match cycles with
  | O => Py.ret tt
  | S cycles =>
      current_prices <- on_world (fetch_all_items self token_pair) ;;
      compare_each callback previous_prices current_prices ;;
      on_world (Py.modify (sleep 1)) ;;
      monitor_rounds cycles self token_pair callback current_prices
  end.

(** [monitor_price_changes]: [previous_prices = {}], then the loop. *)
Definition monitor_price_changes (cycles : nat) (self : PriceFetcher)
    (token_pair : string * string)
    (callback : string -> Q -> Q -> W -> (Py.Exn + unit) * W)
    : Py.M (Monitoring W) unit :=
  monitor_rounds cycles self token_pair callback [].

(** What a computation may add to the calls of the callback. *)
Definition notifies {A} (P : string * Q * Q -> Prop)
    (m : Py.M (Monitoring W) A) : Prop :=
  forall s, exists new,
    notified (m s).2 = notified s ++ new /\ Forall P new.

End Monitor.

(** A call of the callback reports a change of more than 1% from a
    previous price that is not zero. *)
Definition significant (previous_prices current_prices : Items)
    (call : string * Q * Q) : Prop :=
  let '(market, previous, price) := call in
  dict_get previous_prices market = Some (Some previous) /\
  (market, Some price) ∈ current_prices /\
  ~ (previous == 0)%Q /\
  (1 # 100 < Qabs ((price - previous) / previous))%Q.

(** For the examples: pauses that leave the world alone, a table in which
    two sources share the key ["a_b_c"], and a callback that returns. *)
Definition no_pause_nat : Pause nat := {| sleep := fun _ n => n |}.
Definition no_pause_unit : Pause unit := {| sleep := fun _ w => w |}.


Definition ignore_change {W} (market : string) (previous price : Q) (w : W)
    : (Py.Exn + unit) * W :=
  (inr tt, w).

End PriceMonitor.

(** ** [app/components/trade_executor.py] *)

Module Executor.

(** An [ArbitrageOpportunity] object in memory: its dataclass fields and the
    attributes the executor adds to it ([status], [progress]). Writing
    [timestamp] into [trade.__dict__] writes the dataclass field of that
    name; the time written is kept as a number. *)
Record Trade := {
  fields : Finder.ArbitrageOpportunity;
  status : option string;
  progress : option Q
}.

(** [st.session_state] with its objects. The three lists hold references:
    [execute_opportunity] appends to the active trades the very object that
    is in [opportunities], and an entry of the history is the [__dict__] of
    the trade object, not a copy. *)
Record Session := {
  heap : gmap nat Trade;
  opportunities : list nat;
  active_trades : list nat;
  historical_trades : list nat
}.

(** [l.pop(i)]: a negative index counts from the end. *)
Definition pop {A} (l : list A) (i : Z) : Py.Exn + A * list A :=
  match l with
  | [] => inl "pop from empty list"
  | _ =>
      let n := Z.of_nat (length l) in
      let j := if (i <? 0)%Z then (i + n)%Z else i in
      if ((0 <=? j) && (j <? n))%Z
      then match l !! Z.to_nat j with
           | Some x => inr (x, delete (Z.to_nat j) l)
           | None => inl "pop index out of range"
           end
      else inl "pop index out of range"
  end.

(** [execute_opportunity(bot, opportunity)] of the dashboard, on
    references. *)
Definition execute_opportunity (opportunity : nat) (st : Session)
    : Session * list Dashboard.Shown :=
  ({| heap := heap st;
      opportunities := opportunities st;
      active_trades := active_trades st ++ [opportunity];
      historical_trades := historical_trades st |},
   [Dashboard.Success "Trade executed successfully!"]).

(** [trade_dict["status"] = "Cancelled"; trade_dict["timestamp"] = now] *)
Definition mark_cancelled (now : Q) (t : Trade) : Trade :=
  {| fields :=
       {| Finder.source_chain := Finder.source_chain (fields t);
          Finder.source_dex := Finder.source_dex (fields t);
          Finder.target_chain := Finder.target_chain (fields t);
          Finder.target_dex := Finder.target_dex (fields t);
          Finder.token_pair := Finder.token_pair (fields t);
          Finder.profit_percentage := Finder.profit_percentage (fields t);
          Finder.estimated_profit_usd := Finder.estimated_profit_usd (fields t);
          Finder.required_capital := Finder.required_capital (fields t);
          Finder.execution_path := Finder.execution_path (fields t);
          Finder.gas_costs := Finder.gas_costs (fields t);
          Finder.timestamp := now;
          Finder.ai_analysis := Finder.ai_analysis (fields t) |};
     status := Some "Cancelled";
     progress := progress t |}.

(** [cancel_trade(bot, trade_idx)]; [now] is [datetime.now()]. *)
Definition cancel_trade (now : Q) (trade_idx : Z) (st : Session)
    : Session * list Dashboard.Shown :=
  match pop (active_trades st) trade_idx with
  | inr (trade, rest) =>
      ({| heap := alter (mark_cancelled now) trade (heap st);
          opportunities := opportunities st;
          active_trades := rest;
          historical_trades := historical_trades st ++ [trade] |},
       [Dashboard.Success "Trade cancelled successfully"])
  | inl e => (st, [Dashboard.Error ("Error cancelling trade: " +:+ e)])
  end.

(** [update_trade_progress(trade_idx, progress, status)] *)
Definition update_trade_progress (trade_idx : Z) (new_progress : Q)
    (new_status : string) (st : Session) : Session :=
  if ((0 <=? trade_idx) && (trade_idx <? Z.of_nat (length (active_trades st))))%Z
  then
    match active_trades st !! Z.to_nat trade_idx with
    | Some trade =>
        {| heap :=
             alter (fun t => {| fields := fields t;
                                status := Some new_status;
                                progress := Some new_progress |})
               trade (heap st);
           opportunities := opportunities st;
           active_trades := active_trades st;
           historical_trades := historical_trades st |}
    | None => st
    end
  else st.

(** What the dashboard's model sees of a session: the objects behind the
    references, and for the history the status they ended in. *)
Definition view (st : Session) : Dashboard.SessionState :=
  {| Dashboard.opportunities :=
       omap (fun r => fields <$> heap st !! r) (opportunities st);
     Dashboard.active_trades :=
       omap (fun r => fields <$> heap st !! r) (active_trades st);
     Dashboard.historical_trades :=
       omap (fun r => (fun t => (fields t, default "Completed" (status t)))
                        <$> heap st !! r)
            (historical_trades st) |}.

(** A session for the examples: one trade object, active twice. *)
Definition twice_active : Session :=
  {| heap := {[ 0 := {| fields := Finder.sample_opportunity 0;
                        status := None; progress := None |} ]};
     opportunities := [0];
     active_trades := [0; 0];
     historical_trades := [] |}.

End Executor.

(** ** [app/components/settings.py] *)

Module Settings.

(** [str.lower()], on ASCII letters. *)
Definition lower_ascii (c : Ascii.ascii) : Ascii.ascii :=
  let n := Ascii.nat_of_ascii c in
  if ((65 <=? n) && (n <=? 90))%nat then Ascii.ascii_of_nat (n + 32) else c.

Fixpoint lower (s : string) : string :=
  match s with
  | EmptyString => EmptyString
  | String c rest => String (lower_ascii c) (lower rest)
  end.

(** An entry of the [networks] dict: [{"rpc": ..., "enabled": ...}]. *)
Record NetworkConfig := {
  rpc : string;
  enabled : bool
}.

(** The [for network, config in networks.items()] loop of
    [save_network_settings], on the string entries of [st.session_state]. *)
Definition save_each (networks : list (string * NetworkConfig))
    (st : gmap string string) : gmap string string :=
  foldl (fun st '(network, config) =>
           if enabled config
           then <[lower network +:+ "_rpc" := rpc config]> st
           else st)
        st networks.

(** [save_network_settings(bot, networks)] *)
Definition save_network_settings (networks : list (string * NetworkConfig))
    (st : gmap string string) : gmap string string * list Dashboard.Shown :=
  (save_each networks st,
   [Dashboard.Success "Network settings saved successfully!"]).

(** The [networks] dict of [render_network_settings], from what was entered
    for the four networks. *)
Definition networks_of (ethereum bsc polygon avalanche : NetworkConfig)
    : list (string * NetworkConfig) :=
  [("Ethereum", ethereum); ("BSC", bsc); ("Polygon", polygon);
   ("Avalanche", avalanche)].

(** The values [render_network_settings] puts into the four URL inputs:
    [st.session_state.get("eth_rpc", "")] and so on. *)
Definition shown_urls (st : gmap string string) : list (string * string) :=
  [("Ethereum", default "" (st !! "eth_rpc"));
   ("BSC", default "" (st !! "bsc_rpc"));
   ("Polygon", default "" (st !! "polygon_rpc"));
   ("Avalanche", default "" (st !! "avax_rpc"))].

End Settings.

(** * Properties *)

(** ** The monad *)

Lemma bind_inr {S A B} (m : Py.M S A) (k : A -> Py.M S B) s a s1 :
  m s = (inr a, s1) -> Py.bind m k s = k a s1.
Proof. unfold Py.bind. now intros ->. Qed.

Lemma bind_inl {S A B} (m : Py.M S A) (k : A -> Py.M S B) s e s1 :
  m s = (inl e, s1) -> Py.bind m k s = (inl e, s1).
Proof. unfold Py.bind. now intros ->. Qed.

Ltac py_unfold :=
  unfold Py.bind, Py.try_except, Py.getitem, Py.ret, Py.raise, Py.gets,
    Py.modify.

(** ** [execute_arbitrage] *)

Section ExecutionFacts.
Import Blockchain.
Context {W : Type} {legs : Legs W}.

(** Step 1 either records the purchase, or raises and leaves [result] as it
    was; when it raises, the purchase is the last leg started, if it was
    started at all. *)
Lemma source_transaction_spec (opp : OpportunityDict) (s : State W) :
  match source_transaction opp s with
  | (inr tx, s') =>
      exists chain dex amt pair,
        source_chain opp = Some chain /\ source_dex opp = Some dex /\
        required_capital opp = Some amt /\ token_pair opp = Some pair /\
        execute_dex_trade chain dex "buy" amt pair (world s) = (inr tx, world s') /\
        journal s' = journal s ++ [(CallDexTrade chain dex "buy" amt pair, inr tx)] /\
        result s' =
          {| success := success (result s);
             transactions := transactions (result s) ++ [tx];
             errors := errors (result s) |}
  | (inl e, s') =>
      result s' = result s /\
      (journal s' = journal s \/ exists c, journal s' = journal s ++ [(c, inl e)])
  end.
Proof.
  unfold source_transaction, await_dex_trade, append_transaction. py_unfold.
  destruct (source_chain opp) as [chain|]; [|cbn; auto].
  destruct (source_dex opp) as [dex|]; [|cbn; auto].
  destruct (required_capital opp) as [amt|]; [|cbn; auto].
  destruct (token_pair opp) as [pair|]; [|cbn; auto].
  destruct (execute_dex_trade chain dex "buy" amt pair (world s))
    as [[e|tx] w1] eqn:E; cbn.
  - split; [reflexivity|]. right. eexists. reflexivity.
  - exists chain, dex, amt, pair. repeat split; reflexivity || assumption.
Qed.

Lemma bridge_if_necessary_spec (opp : OpportunityDict) (buy_tx : Transaction)
    (s : State W) :
  match bridge_if_necessary opp buy_tx s with
  | (inr None, s') =>
      s' = s /\
      exists chain, source_chain opp = Some chain /\ target_chain opp = Some chain
  | (inr (Some tx), s') =>
      exists src tgt pair,
        source_chain opp = Some src /\ target_chain opp = Some tgt /\
        src <> tgt /\ token_pair opp = Some pair /\
        bridge_assets src tgt pair.1 (received_amount buy_tx) (world s)
          = (inr tx, world s') /\
        journal s' =
          journal s ++
          [(CallBridge src tgt pair.1 (received_amount buy_tx), inr tx)] /\
        result s' =
          {| success := success (result s);
             transactions := transactions (result s) ++ [tx];
             errors := errors (result s) |}
  | (inl e, s') =>
      result s' = result s /\
      (journal s' = journal s \/ exists c, journal s' = journal s ++ [(c, inl e)])
  end.
Proof.
  unfold bridge_if_necessary, await_bridge, append_transaction. py_unfold.
  destruct (source_chain opp) as [src|]; [|cbn; auto].
  destruct (target_chain opp) as [tgt|]; [|cbn; auto].
  case_bool_decide as Hne.
  - destruct (token_pair opp) as [pair|]; [|cbn; auto].
    destruct (bridge_assets src tgt pair.1 (received_amount buy_tx) (world s))
      as [[e|tx] w1] eqn:E; cbn.
    + split; [reflexivity|]. right. eexists. reflexivity.
    + exists src, tgt, pair. repeat split; reflexivity || assumption.
  - subst tgt. split; [reflexivity|]. now exists src.
Qed.

Lemma target_transaction_spec (opp : OpportunityDict) (buy_tx : Transaction)
    (bridge_tx : option Transaction) (s : State W) :
  match target_transaction opp buy_tx bridge_tx s with
  | (inr _, s') =>
      exists chain dex pair tx,
        target_chain opp = Some chain /\ target_dex opp = Some dex /\
        token_pair opp = Some pair /\
        execute_dex_trade chain dex "sell"
          (received_amount (default buy_tx bridge_tx)) pair (world s)
          = (inr tx, world s') /\
        journal s' =
          journal s ++
          [(CallDexTrade chain dex "sell"
              (received_amount (default buy_tx bridge_tx)) pair, inr tx)] /\
        result s' =
          {| success := success (result s);
             transactions := transactions (result s) ++ [tx];
             errors := errors (result s) |}
  | (inl e, s') =>
      result s' = result s /\
      (journal s' = journal s \/ exists c, journal s' = journal s ++ [(c, inl e)])
  end.
Proof.
  unfold target_transaction, await_dex_trade, append_transaction. py_unfold.
  destruct (target_chain opp) as [chain|]; [|cbn; auto].
  destruct (target_dex opp) as [dex|]; [|cbn; auto].
  destruct (token_pair opp) as [pair|]; [|cbn; auto].
  replace (match bridge_tx with
           | Some b => received_amount b
           | None => received_amount buy_tx
           end) with (received_amount (default buy_tx bridge_tx))
    by now destruct bridge_tx.
  destruct (execute_dex_trade chain dex "sell" _ pair (world s))
    as [[e|tx] w1] eqn:E; cbn.
  - split; [reflexivity|]. right. eexists. reflexivity.
  - exists chain, dex, pair, tx. repeat split; reflexivity || assumption.
Qed.

(** The [try] block as a whole. *)
Lemma execute_arbitrage_try_cases (opp : OpportunityDict) (w : W) :
  match execute_arbitrage_try opp (enter w) with
  | (inr _, s') => Completed opp w s'
  | (inl e, s') => Stopped e s'
  end.
Proof.
  unfold execute_arbitrage_try.
  pose proof (source_transaction_spec opp (enter w)) as H1.
  destruct (source_transaction opp (enter w)) as [[e|buy_tx] s1] eqn:E1.
  { rewrite (bind_inl _ _ _ _ _ E1). destruct H1 as [Hr Hj].
    unfold Stopped. rewrite Hr. cbn. repeat split.
    exists []. split; [reflexivity|]. exact Hj. }
  rewrite (bind_inr _ _ _ _ _ E1).
  destruct H1 as (src & sdex & cap & pair & Hsrc & Hsdex & Hcap & Hpair & Hbuy & Hj1 & Hr1).
  cbn in Hbuy, Hj1, Hr1.
  pose proof (bridge_if_necessary_spec opp buy_tx s1) as H2.
  destruct (bridge_if_necessary opp buy_tx s1) as [[e|bridge_tx] s2] eqn:E2.
  { rewrite (bind_inl _ _ _ _ _ E2). destruct H2 as [Hr Hj].
    unfold Stopped. rewrite Hr, Hr1. cbn. repeat split.
    exists [(CallDexTrade src sdex "buy" cap pair, buy_tx)].
    split; [reflexivity|]. rewrite Hj1 in Hj. exact Hj. }
  rewrite (bind_inr _ _ _ _ _ E2).
  pose proof (target_transaction_spec opp buy_tx bridge_tx s2) as H3.
  destruct (target_transaction opp buy_tx bridge_tx s2) as [[e|[]] s3] eqn:E3.
  { rewrite (bind_inl _ _ _ _ _ E3). destruct H3 as [Hr Hj].
    unfold Stopped. rewrite Hr.
    destruct bridge_tx as [bridge_tx|].
    - destruct H2 as (src' & tgt & pair' & Hsrc' & Htgt & Hne & Hpair' & Hbr & Hj2 & Hr2).
      rewrite Hr2, Hr1. cbn. repeat split.
      exists [(CallDexTrade src sdex "buy" cap pair, buy_tx);
              (CallBridge src' tgt pair'.1 (received_amount buy_tx), bridge_tx)].
      split; [reflexivity|]. rewrite Hj2, Hj1 in Hj. exact Hj.
    - destruct H2 as [-> _]. rewrite Hr1. cbn. repeat split.
      exists [(CallDexTrade src sdex "buy" cap pair, buy_tx)].
      split; [reflexivity|]. rewrite Hj1 in Hj. exact Hj. }
  rewrite (bind_inr _ _ _ _ _ E3).
  destruct H3 as (tgt & tdex & pair3 & sell_tx & Htgt & Htdex & Hpair3 & Hsell & Hj3 & Hr3).
  assert (pair3 = pair) as -> by congruence.
  unfold set_success. py_unfold. cbn.
  destruct bridge_tx as [bridge_tx|].
  - destruct H2 as (src' & tgt' & pair' & Hsrc' & Htgt' & Hne & Hpair' & Hbr & Hj2 & Hr2).
    assert (src' = src) as -> by congruence.
    assert (tgt' = tgt) as -> by congruence.
    assert (pair' = pair) as -> by congruence.
    eapply completed_cross_chain; eauto; cbn.
    + now rewrite Hj3, Hj2, Hj1.
    + now rewrite Hr3, Hr2, Hr1.
  - destruct H2 as [-> (chain & Hc1 & Hc2)].
    assert (chain = src) as -> by congruence.
    assert (tgt = src) as -> by congruence.
    eapply completed_same_chain; eauto; cbn.
    + now rewrite Hj3, Hj1.
    + now rewrite Hr3, Hr1.
Qed.


(** [execute_arbitrage] itself: the handler turns a stopped run into a
    result with the error appended. *)
Lemma execute_arbitrage_cases (opp : OpportunityDict) (w : W) :
  (exists s',
     execute_arbitrage opp (enter w) = (inr (result s'), s') /\
     Completed opp w s') \/
  (exists e (s1 s' : State W),
     execute_arbitrage opp (enter w) = (inr (result s'), s') /\
     Stopped e s1 /\ journal s' = journal s1 /\
     result s' =
       {| success := success (result s1);
          transactions := transactions (result s1);
          errors := errors (result s1) ++ [e] |}).
Proof.
  pose proof (execute_arbitrage_try_cases opp w) as H.
  unfold execute_arbitrage, append_error. py_unfold.
  destruct (execute_arbitrage_try opp (enter w)) as [[e|[]] s1].
  - right. exists e, s1. eexists. split; [reflexivity|]. cbn. auto.
  - left. exists s1. auto.
Qed.

Lemma returned_no_failure (l : list (LegCall * Transaction)) pre c e post :
  returned l <> pre ++ (c, inl e) :: post.
Proof.
  intros H.
  assert ((c, inl e) ∈ returned l) as Hin
    by (rewrite H; apply elem_of_app; right; apply elem_of_cons; now left).
  unfold returned in Hin. apply list_elem_of_fmap in Hin as (ct & Heq & _).
  discriminate.
Qed.

Lemma failure_is_last (l : list (LegCall * Transaction)) c e pre c' e' post :
  returned l ++ [(c, inl e)] = pre ++ (c', inl e') :: post ->
  post = [] /\ e' = e /\ pre = returned l.
Proof.
  destruct post as [|x post _] using rev_ind; intros H.
  - apply app_inj_tail in H as [H1 H2]. repeat split; congruence.
  - rewrite app_comm_cons, app_assoc in H.
    apply app_inj_tail in H as [H _].
    now apply returned_no_failure in H.
Qed.

Lemma completed_plan (opp : OpportunityDict) (w : W) (s : State W) :
  Completed opp w s ->
  success (result s) = true /\ errors (result s) = [] /\
  exists src tgt l,
    source_chain opp = Some src /\ target_chain opp = Some tgt /\
    journal s = returned l /\
    map (kind_of ∘ fst) l = plan src tgt /\
    transactions (result s) = map snd l.
Proof.
  intros [chain sdex tdex pair cap buy_tx w1 sell_tx Hs Ht _ _ _ _ _ _ Hj Hr
         |src tgt sdex tdex pair cap buy_tx w1 bridge_tx w2 sell_tx
            Hs Ht Hne _ _ _ _ _ _ _ Hj Hr];
    rewrite Hr; cbn; (split; [reflexivity|]); (split; [reflexivity|]).
  - exists chain, chain. eexists. repeat split; eauto.
    unfold plan. now rewrite bool_decide_false by auto.
  - exists src, tgt. eexists. repeat split; eauto.
    unfold plan. now rewrite bool_decide_true by auto.
Qed.


(** C1: in every execution of a trade, a leg that fails (acquire, bridge or
    dispose) is the last leg started, its raw error is the one recorded in
    the errors of the result, the success flag is false, and the
    transactions recorded are those of the legs before it; the flag is true
    only when every leg of the plan was started and returned, the
    transactions of the result being those of the legs in order. *)
Theorem execute_arbitrage_stops_at_failed_leg (opp : OpportunityDict) (w : W)
    (r : Result) (s' : State W) :
  execute_arbitrage opp (enter w) = (inr r, s') ->
  (forall pre c e post,
     journal s' = pre ++ (c, inl e) :: post ->
     post = [] /\ errors r = [e] /\ success r = false /\
     exists l, pre = returned l /\ transactions r = map snd l) /\
  (success r = true ->
   errors r = [] /\
   exists src tgt l,
     source_chain opp = Some src /\ target_chain opp = Some tgt /\
     journal s' = returned l /\
     map (kind_of ∘ fst) l = plan src tgt /\
     transactions r = map snd l).
Proof.
  intros Hrun.
  destruct (execute_arbitrage_cases opp w)
    as [(s2 & Hrun' & Hc)|(e & s1 & s2 & Hrun' & Hs & Hj & Hr)];
    rewrite Hrun in Hrun'; injection Hrun' as -> ->.
  - apply completed_plan in Hc as (Hok & Herr & src & tgt & l & H).
    split.
    + intros pre c e post Hj. destruct H as (_ & _ & Hl & _).
      rewrite Hl in Hj. now apply returned_no_failure in Hj.
    + intros _. split; [exact Herr|]. now exists src, tgt, l.
  - destruct Hs as (Hf & He & l & Htx & Hjl). rewrite Hr, Hf, He. cbn.
    split; [|discriminate].
    intros pre c e' post Hj'. rewrite Hj in Hj'.
    destruct Hjl as [Hjl|[c0 Hjl]]; rewrite Hjl in Hj'.
    + now apply returned_no_failure in Hj'.
    + apply failure_is_last in Hj' as (-> & -> & ->).
      repeat (split; [reflexivity|]). now exists l.
Qed.

End ExecutionFacts.

(** A successful leg of the placeholder venues returns at most what it was
    given, when that is not negative. *)
Section PlaceholderFacts.
Import Blockchain.

Lemma placeholder_dex_trade_returns chain dex action amt pair w tx w' :
  placeholder_dex_trade chain dex action amt pair w = (inr tx, w') ->
  tx = DexTrade chain dex action amt (amt * (99 # 100)) "0x...".
Proof.
  unfold placeholder_dex_trade. case_bool_decide; congruence.
Qed.

Lemma placeholder_bridge_returns from_chain to_chain token amt w tx w' :
  placeholder_bridge from_chain to_chain token amt w = (inr tx, w') ->
  tx = BridgeTransfer from_chain to_chain token amt (amt * (995 # 1000)) "0x...".
Proof. unfold placeholder_bridge. congruence. Qed.

(** C3: in a complete execution of a cross-chain trade with non-negative
    required capital, the acquire leg is started with the required capital,
    the bridge leg with exactly the amount received from the acquire leg,
    the dispose leg with exactly the amount received from the bridge leg,
    and the received amounts do not increase from one leg to the next. *)
Theorem received_amounts_chain (opp : OpportunityDict) (src tgt : string)
    (cap : Q) (r : Result) (s' : State unit) :
  execute_arbitrage (legs := placeholder) opp (enter tt) = (inr r, s') ->
  success r = true ->
  source_chain opp = Some src -> target_chain opp = Some tgt -> src <> tgt ->
  required_capital opp = Some cap -> (0 <= cap)%Q ->
  exists buy_tx bridge_tx sell_tx,
    transactions r = [buy_tx; bridge_tx; sell_tx] /\
    map (kind_of ∘ fst) (journal s') = [Acquire; Bridge; Dispose] /\
    map (called_amount ∘ fst) (journal s')
      = [cap; received_amount buy_tx; received_amount bridge_tx] /\
    amount buy_tx = cap /\
    amount bridge_tx = received_amount buy_tx /\
    amount sell_tx = received_amount bridge_tx /\
    (received_amount buy_tx <= cap)%Q /\
    (received_amount bridge_tx <= received_amount buy_tx)%Q /\
    (received_amount sell_tx <= received_amount bridge_tx)%Q.
Proof.
  intros Hrun Hok Hsrc Htgt Hne Hcap Hpos.
  destruct (execute_arbitrage_cases (legs := placeholder) opp tt)
    as [(s2 & Hrun' & Hc)|(e & s1 & s2 & Hrun' & Hs & Hj & Hr)];
    rewrite Hrun in Hrun'; injection Hrun' as -> ->.
  2: { destruct Hs as (Hf & _). rewrite Hr in Hok. cbn in Hok. congruence. }
  destruct Hc as [chain sdex tdex pair cap' buy_tx w1 sell_tx Hs Ht _ _ _ _ _ _ _ _
                 |src' tgt' sdex tdex pair cap' buy_tx w1 bridge_tx w2 sell_tx
                    _ _ _ _ _ _ Hcap' Hbuy Hbridge Hsell Hj Hr].
  { congruence. }
  assert (cap' = cap) as -> by congruence.
  apply placeholder_dex_trade_returns in Hbuy as ->.
  apply placeholder_bridge_returns in Hbridge as ->.
  apply placeholder_dex_trade_returns in Hsell as ->.
  do 3 eexists. rewrite Hr, Hj. cbn.
  repeat (split; [reflexivity|]).
  repeat split; cbn [received_amount]; lra.
Qed.

Lemma received_amounts_chain_witness :
  (0 <= 10)%Q /\
  exists buy_tx bridge_tx sell_tx,
    transactions (result placeholder_run.2) = [buy_tx; bridge_tx; sell_tx] /\
    map (kind_of ∘ fst) (journal placeholder_run.2)
      = [Acquire; Bridge; Dispose] /\
    map (called_amount ∘ fst) (journal placeholder_run.2)
      = [10%Q; received_amount buy_tx; received_amount bridge_tx] /\
    amount buy_tx = 10%Q /\
    amount bridge_tx = received_amount buy_tx /\
    amount sell_tx = received_amount bridge_tx /\
    (received_amount buy_tx <= 10)%Q /\
    (received_amount bridge_tx <= received_amount buy_tx)%Q /\
    (received_amount sell_tx <= received_amount bridge_tx)%Q.
Proof.
  assert (0 <= 10)%Q as Hpos by (vm_compute; discriminate).
  split; [exact Hpos|].
  apply (received_amounts_chain (weth_usdt 10) "ethereum" "polygon" 10
           (result placeholder_run.2) placeholder_run.2);
    [vm_compute; reflexivity | reflexivity | reflexivity | reflexivity
    | discriminate | reflexivity | exact Hpos].
Defined.

Lemma execute_arbitrage_stops_at_failed_leg_witness :
  (forall pre c e post,
     journal timeout_run.2 = pre ++ (c, inl e) :: post ->
     post = [] /\ errors (result timeout_run.2) = [e] /\
     success (result timeout_run.2) = false /\
     exists l, pre = returned l /\
               transactions (result timeout_run.2) = map snd l) /\
  (success (result timeout_run.2) = true ->
   errors (result timeout_run.2) = [] /\
   exists src tgt l,
     source_chain (weth_usdt 10) = Some src /\
     target_chain (weth_usdt 10) = Some tgt /\
     journal timeout_run.2 = returned l /\
     map (kind_of ∘ fst) l = plan src tgt /\
     transactions (result timeout_run.2) = map snd l).
Proof.
  apply (execute_arbitrage_stops_at_failed_leg (legs := bridge_times_out)
           (weth_usdt 10) tt (result timeout_run.2) timeout_run.2).
  vm_compute. reflexivity.
Defined.

End PlaceholderFacts.

(** ** Comparisons, [min] and [max] *)

Lemma lt_spec a b : Py.lt a b = true <-> (a < b)%Q.
Proof.
  unfold Py.lt. rewrite negb_true_iff, <- not_true_iff_false, Qle_bool_iff.
  split; [apply Qnot_le_lt | apply Qlt_not_le].
Qed.

Lemma lt_false a b : Py.lt a b = false <-> (b <= a)%Q.
Proof. unfold Py.lt. rewrite negb_false_iff. apply Qle_bool_iff. Qed.

Lemma ge_spec a b : Py.ge a b = true <-> (b <= a)%Q.
Proof. apply Qle_bool_iff. Qed.

Lemma min_le_r a b : (Py.min a b <= b)%Q.
Proof.
  unfold Py.min. destruct (Py.lt b a) eqn:E.
  - apply Qle_refl.
  - now apply lt_false in E.
Qed.

Lemma min_glb a b c : (c <= a)%Q -> (c <= b)%Q -> (c <= Py.min a b)%Q.
Proof. unfold Py.min. now destruct (Py.lt b a). Qed.

Lemma max_ge_l a b : (a <= Py.max a b)%Q.
Proof.
  unfold Py.max, Py.gt. destruct (Py.lt a b) eqn:E.
  - apply lt_spec in E. now apply Qlt_le_weak.
  - apply Qle_refl.
Qed.

(** ** The risk score *)

Section StrategyFacts.
Import Strategy.
Context {W : Type} {advisory : Advisory W}.

(** The sentiment is the answer moved to the 0-1 scale, or [0.5] when the
    call failed; the method itself never raises. *)
Lemma _analyze_text_sentiment_cases (text : string) (w : W) :
  _analyze_text_sentiment text w =
    match text_sentiment text w with
    | (inr answer, w') => (inr ((answer + 1) / 2)%Q, w')
    | (inl _, w') => (inr (1 # 2), w')
    end.
Proof.
  unfold _analyze_text_sentiment. py_unfold.
  now destruct (text_sentiment text w) as [[e|answer] w'].
Qed.

Lemma _calculate_risk_score_returns (text : string) (data : OpportunityData)
    (w : W) :
  exists sentiment w',
    _analyze_text_sentiment text w = (inr sentiment, w') /\
    _calculate_risk_score text data w =
      (inr (Py.min
              ((1 # 2) + Py.min (profit_percentage data / 10) (3 # 10)
               + Py.max 0 ((2 # 10) - required_capital data / 100000)
               + sentiment) 1)%Q, w').
Proof.
  unfold _calculate_risk_score. rewrite _analyze_text_sentiment_cases.
  destruct (text_sentiment text w) as [[e|answer] w'] eqn:E;
    eexists _, w'; (split; [reflexivity|]);
    unfold Py.bind; rewrite _analyze_text_sentiment_cases, E; reflexivity.
Qed.

(** The score never exceeds 1. *)
Lemma risk_score_at_most_one (text : string) (data : OpportunityData) (w : W) :
  exists score w',
    _calculate_risk_score text data w = (inr score, w') /\ (score <= 1)%Q.
Proof.
  destruct (_calculate_risk_score_returns text data w) as (s & w' & _ & ->).
  eexists _, w'. split; [reflexivity|]. apply min_le_r.
Qed.

(** It is not negative when the profit percentage is not and the sentiment
    call failed or answered within the range [-1, 1] it was asked for. *)
Lemma risk_score_not_negative (text : string) (data : OpportunityData) (w : W) :
  (0 <= profit_percentage data)%Q ->
  match (text_sentiment text w).1 with
  | inr answer => (-1 <= answer)%Q
  | inl _ => True
  end ->
  exists score w',
    _calculate_risk_score text data w = (inr score, w') /\ (0 <= score)%Q.
Proof.
  intros Hp Ha.
  destruct (_calculate_risk_score_returns text data w) as (s & w' & Hs & ->).
  eexists _, w'. split; [reflexivity|].
  assert (0 <= s)%Q as Hs0.
  { rewrite _analyze_text_sentiment_cases in Hs.
    destruct (text_sentiment text w) as [[e|answer] w1]; cbn in Ha;
      injection Hs as <- _; [lra|].
    apply Qle_shift_div_l; lra. }
  apply min_glb; [|lra].
  pose proof (max_ge_l 0 ((2 # 10) - required_capital data / 100000)).
  assert (0 <= Py.min (profit_percentage data / 10) (3 # 10))%Q.
  { apply min_glb; [|lra]. apply Qle_shift_div_l; lra. }
  lra.
Qed.

End StrategyFacts.

(** ** The finder *)

Section FinderFacts.
Import Finder.
Context {W : Type} {advisory : Strategy.Advisory W} {scanner : Scanner W}.

(** *** What a computation may add to the list of emitted opportunities *)

Lemma emits_nothing {A} P (m : Py.M (State W) A) :
  (forall s, emitted (m s).2 = emitted s) -> emits P m.
Proof.
  intros H s. exists []. rewrite app_nil_r. split; [apply H | constructor].
Qed.

Lemma emits_ret {A} P (a : A) : emits (W := W) P (Py.ret a).
Proof. now apply emits_nothing. Qed.

Lemma emits_consult {A} P c (m : Py.M W A) : emits P (consult c m).
Proof.
  apply emits_nothing. intros s. unfold consult. now destruct (m (world s)).
Qed.

Lemma emits_on_world {A} P (m : Py.M W A) : emits P (on_world m).
Proof.
  apply emits_nothing. intros s. unfold on_world. now destruct (m (world s)).
Qed.

(** Sequencing; the continuation may use that its argument was returned by
    the first computation. *)
Lemma emits_bind {A B} P (m : Py.M (State W) A) (k : A -> Py.M (State W) B) :
  emits P m ->
  (forall s a s1, m s = (inr a, s1) ->
     exists new, emitted (k a s1).2 = emitted s1 ++ new /\ Forall P new) ->
  emits P (Py.bind m k).
Proof.
  intros Hm Hk s. destruct (Hm s) as (new1 & H1 & HP1).
  unfold Py.bind. destruct (m s) as [[e|a] s1] eqn:E.
  - now exists new1.
  - destruct (Hk s a s1 E) as (new2 & H2 & HP2). cbn in H1.
    exists (new1 ++ new2). rewrite H2, H1, app_assoc.
    split; [reflexivity|]. now apply Forall_app.
Qed.

Lemma emits_bind_all {A B} P (m : Py.M (State W) A) (k : A -> Py.M (State W) B) :
  emits P m -> (forall a, emits P (k a)) -> emits P (Py.bind m k).
Proof. intros Hm Hk. apply emits_bind; [exact Hm|]. intros s a s1 _. apply Hk. Qed.

(** *** [validate_opportunity] *)

Lemma validate_rejects_low_profit (self : ArbitrageFinder)
    (opp : ArbitrageOpportunity) (s : State W) :
  (profit_percentage opp < min_profit_threshold self)%Q ->
  validate_opportunity self opp s = (inr false, s).
Proof.
  intros H. unfold validate_opportunity.
  apply lt_spec in H. now rewrite H.
Qed.

Lemma validate_rejects_gas (self : ArbitrageFinder)
    (opp : ArbitrageOpportunity) (s : State W) :
  (estimated_profit_usd opp < Py.sum (map snd (gas_costs opp)))%Q ->
  validate_opportunity self opp s = (inr false, s).
Proof.
  intros H. unfold validate_opportunity, Py.gt.
  apply lt_spec in H. rewrite H.
  now destruct (Py.lt (profit_percentage opp) _).
Qed.

Lemma validate_after_gates (self : ArbitrageFinder)
    (opp : ArbitrageOpportunity) (s : State W) :
  (min_profit_threshold self <= profit_percentage opp)%Q ->
  (Py.sum (map snd (gas_costs opp)) <= estimated_profit_usd opp)%Q ->
  validate_opportunity self opp s =
    match ai_analysis opp with
    | Some a => ai_validation a opp s
    | None => (inr true, s)
    end.
Proof.
  intros H1 H2. unfold validate_opportunity, Py.gt.
  apply lt_false in H1, H2. rewrite H1, H2. now destruct (ai_analysis opp).
Qed.

(** A positive verdict means the profit gate let the opportunity through. *)
Lemma validate_true_profit (self : ArbitrageFinder)
    (opp : ArbitrageOpportunity) (s s' : State W) :
  validate_opportunity self opp s = (inr true, s') ->
  (min_profit_threshold self <= profit_percentage opp)%Q.
Proof.
  intros H. destruct (Qlt_le_dec (profit_percentage opp) (min_profit_threshold self))
    as [Hlt|Hle]; [|exact Hle].
  rewrite (validate_rejects_low_profit _ _ _ Hlt) in H. discriminate.
Qed.

Lemma emits_sentiment_low P d : emits (W := W) P (sentiment_low d).
Proof.
  apply emits_nothing. intros s. unfold sentiment_low.
  destruct (truthy_dict d); [|reflexivity].
  now destruct (d ≫= _) as [[q|str]|].
Qed.

Lemma emits_ai_validation P a opp : emits P (ai_validation a opp).
Proof.
  unfold ai_validation. destruct (Py.lt _ _); [apply emits_ret|].
  apply emits_bind_all; [apply emits_consult|]. intros prediction.
  destruct (predicts_down prediction); [apply emits_ret|].
  apply emits_bind_all; [apply emits_consult|]. intros sentiment.
  apply emits_bind_all; [apply emits_sentiment_low|].
  intros []; apply emits_ret.
Qed.

Lemma emits_validate P self opp : emits P (validate_opportunity self opp).
Proof.
  unfold validate_opportunity.
  destruct (Py.lt _ _); [apply emits_ret|].
  destruct (Py.gt _ _); [apply emits_ret|].
  destruct (ai_analysis opp); [apply emits_ai_validation | apply emits_ret].
Qed.

(** *** [find_opportunities] *)

Lemma emits_analyze_each P self raw acc : emits P (analyze_each self raw acc).
Proof.
  revert acc. induction raw as [|opp rest IH]; intros acc; cbn.
  - apply emits_ret.
  - apply emits_bind_all; [apply emits_consult|]. intros ai.
    destruct (recommended ai); [|apply IH].
    apply emits_bind_all; [apply emits_consult|]. intros p. apply IH.
Qed.

Lemma emits_find_opportunities P self : emits P (find_opportunities self).
Proof.
  unfold find_opportunities.
  apply emits_bind_all; [apply emits_on_world|]. intros raw.
  apply emits_analyze_each.
Qed.

(** *** [monitor_opportunities] *)

Lemma emits_offer_each self callback opps :
  emits (validated self) (offer_each self callback opps).
Proof.
  induction opps as [|opp rest IH]; cbn.
  - apply emits_ret.
  - apply emits_bind; [apply emits_validate|].
    intros s ok s1 Hv.
    assert (emits (validated self)
              (Py.bind (if ok then await_callback callback opp else Py.ret tt)
                 (fun _ => offer_each self callback rest))) as H; [|apply H].
    apply emits_bind_all; [|intros _; apply IH].
    destruct ok; [|apply emits_ret].
    intros s2. exists [opp]. unfold await_callback.
    destruct (callback opp (world s2)) as [o w']. cbn.
    split; [reflexivity|]. repeat constructor.
    + eapply validate_true_profit, Hv.
    + now exists s, s1.
Qed.

Lemma emits_monitor cycles self callback :
  emits (validated self) (monitor_opportunities cycles self callback).
Proof.
  induction cycles as [|cycles IH]; cbn.
  - apply emits_ret.
  - apply emits_bind_all; [apply emits_find_opportunities|]. intros opps.
    apply emits_bind_all; [apply emits_offer_each|]. intros _.
    apply emits_bind_all; [apply emits_on_world|]. intros _. apply IH.
Qed.

(** C4: an opportunity whose net profit percentage is strictly below the
    configured minimum threshold is never handed to the execution callback.
    [validate_opportunity] returns [False] for it (and consults nothing),
    and whatever [monitor_opportunities] hands to the callback, over any
    number of rounds, is not below the threshold and got [True] from
    [validate_opportunity]. *)
Theorem below_threshold_never_emitted (self : ArbitrageFinder)
    (callback : ArbitrageOpportunity -> W -> (Py.Exn + unit) * W) :
  (forall opp s,
     (profit_percentage opp < min_profit_threshold self)%Q ->
     validate_opportunity self opp s = (inr false, s)) /\
  (forall cycles s, exists new,
     emitted (monitor_opportunities cycles self callback s).2
       = emitted s ++ new /\
     Forall (fun opp =>
       ~ (profit_percentage opp < min_profit_threshold self)%Q /\
       exists s0 s1 : State W,
         validate_opportunity self opp s0 = (inr true, s1)) new).
Proof.
  split.
  - intros opp s. apply validate_rejects_low_profit.
  - intros cycles s.
    destruct (emits_monitor cycles self callback s) as (new & Hnew & HP).
    exists new. split; [exact Hnew|].
    eapply Forall_impl; [exact HP|]. intros opp [Hle Hv]. split; [|exact Hv].
    now apply Qle_not_lt.
Qed.


(** C6: validation returns [False] whenever the sum of the gas costs of all
    legs exceeds the estimated profit; whenever the sum is at most the
    estimated profit the gas test does not reject, so that an opportunity
    that also passed the profit test is left to the checks on the analysis
    (and is accepted when it carries none). *)
Theorem gas_gate (self : ArbitrageFinder) (opp : ArbitrageOpportunity)
    (s : State W) :
  ((estimated_profit_usd opp < Py.sum (map snd (gas_costs opp)))%Q ->
   validate_opportunity self opp s = (inr false, s)) /\
  ((Py.sum (map snd (gas_costs opp)) <= estimated_profit_usd opp)%Q ->
   Py.gt (Py.sum (map snd (gas_costs opp))) (estimated_profit_usd opp) = false /\
   ((min_profit_threshold self <= profit_percentage opp)%Q ->
    validate_opportunity self opp s =
      match ai_analysis opp with
      | Some a => ai_validation a opp s
      | None => (inr true, s)
      end)).
Proof.
  split; [apply validate_rejects_gas|].
  intros Hgas. split; [now apply lt_false|].
  intros Hprofit. now apply validate_after_gates.
Qed.


(** C5 (as amended): when the analysis call of [analyze_opportunity] fails
    or times out, [analyze_opportunity] returns [None] (no score) instead of
    raising, and [find_opportunities] leaves the opportunity out of its
    result and goes on with the remaining ones: it is never recommended for
    execution. When only the nested sentiment call fails, the neutral [0.5]
    stands for the sentiment and the score is computed as usual. *)
Theorem failed_analysis_is_skipped (self : ArbitrageFinder)
    (opp : ArbitrageOpportunity) (rest acc : list ArbitrageOpportunity)
    (s : State W) (e : Py.Exn) (w' : W) :
  Strategy.chat_analysis (opportunity_data opp) (world s) = (inl e, w') ->
  Strategy.analyze_opportunity (ai_strategy self) (opportunity_data opp)
    (world s) = (inr None, w') /\
  analyze_each self (opp :: rest) acc s =
    analyze_each self rest acc
      {| world := w';
         consulted := consulted s ++ [AnalyzeOpportunity (opportunity_data opp)];
         emitted := emitted s |} /\
  (forall text w e1 w1,
     Strategy.text_sentiment text w = (inl e1, w1) ->
     Strategy._analyze_text_sentiment text w = (inr (1 # 2), w1)).
Proof.
  intros Hchat.
  assert (Strategy.analyze_opportunity (ai_strategy self) (opportunity_data opp)
            (world s) = (inr None, w')) as Hnone.
  { unfold Strategy.analyze_opportunity. py_unfold. now rewrite Hchat. }
  split; [exact Hnone|]. split.
  - cbn [analyze_each]. unfold Py.bind at 1. unfold consult at 1.
    rewrite Hnone. reflexivity.
  - intros text w e1 w1 H. rewrite _analyze_text_sentiment_cases. now rewrite H.
Qed.

End FinderFacts.

(** ** [fetch_all_prices] *)

Section PricesFacts.
Import Prices.
Context {W : Type} {quotes : Quotes W}.

Lemma gather_length {A} (tasks : list (Py.M W A)) (w : W) :
  length (gather tasks w).1 = length tasks.
Proof.
  revert w. induction tasks as [|task rest IH]; intros w; cbn; [reflexivity|].
  destruct (task w) as [o w1]. specialize (IH w1).
  destruct (gather rest w1) as [os w2]. cbn in *. now rewrite IH.
Qed.

Lemma tasks_of_length (self : PriceFetcher) (pair : string * string) :
  length (tasks_of self pair) = length (sources self).
Proof.
  unfold tasks_of, sources.
  induction (supported_dexes self) as [|[chain dexes] rest IH]; cbn;
    [reflexivity|].
  rewrite !length_app, !length_map. f_equal. exact IH.
Qed.

Lemma collect_dexes_sources chain dexes results idx prices :
  collect_dexes chain dexes results idx prices
  = collect_sources (map (fun dex => (chain, dex)) dexes) results idx prices.
Proof.
  revert idx prices. induction dexes as [|dex rest IH]; intros idx prices; cbn;
    [reflexivity|].
  destruct (index results idx) as [e|[e|price]]; [reflexivity| |]; apply IH.
Qed.

Lemma collect_sources_app l1 l2 results idx prices :
  collect_sources (l1 ++ l2) results idx prices
  = match collect_sources l1 results idx prices with
    | inl e => inl e
    | inr (idx', prices') => collect_sources l2 results idx' prices'
    end.
Proof.
  revert idx prices. induction l1 as [|src rest IH]; intros idx prices; cbn;
    [reflexivity|].
  destruct (index results idx) as [e|r]; [reflexivity|]. apply IH.
Qed.

Lemma collect_chains_sources (self : PriceFetcher) results idx prices :
  collect_chains (supported_dexes self) results idx prices
  = collect_sources (sources self) results idx prices.
Proof.
  unfold sources. revert idx prices.
  induction (supported_dexes self) as [|[chain dexes] rest IH];
    intros idx prices; cbn; [reflexivity|].
  rewrite collect_sources_app, collect_dexes_sources.
  destruct (collect_sources _ results idx prices) as [e|[idx' prices']];
    [reflexivity|]. apply IH.
Qed.






End PricesFacts.

(** ** The dashboard *)

Section DashboardFacts.
Import Dashboard.

Lemma submit_twice_spec (opp : Finder.ArbitrageOpportunity) (st : SessionState) :
  submit_twice opp st =
    ({| opportunities := opportunities st;
        active_trades := active_trades st ++ [opp; opp];
        historical_trades := historical_trades st |},
     [Success "Trade executed successfully!";
      Success "Trade executed successfully!"]).
Proof.
  unfold submit_twice, execute_opportunity. cbn. now rewrite <- app_assoc.
Qed.

(** An opportunity that is active twice breaks the guard, whatever the
    fingerprint. *)
Lemma twice_active_not_single {K} (fp : Finder.ArbitrageOpportunity -> K)
    (opp : Finder.ArbitrageOpportunity) (st : SessionState) :
  ~ single_in_flight fp (submit_twice opp st).1.
Proof.
  rewrite submit_twice_spec. cbn. intros H.
  specialize (H (length (active_trades st)) (S (length (active_trades st)))
                opp opp).
  cbn in H. rewrite !lookup_app_r, Nat.sub_diag in H by lia.
  replace (S (length (active_trades st)) - length (active_trades st))
    with 1 in H by lia.
  specialize (H eq_refl eq_refl eq_refl). lia.
Qed.

(** C2 (as amended): the dashboard keeps no fingerprint and has no guard on
    in-flight trades. Submitting the same opportunity twice appends it twice
    to the active trades and reports success twice; nothing is turned down,
    and no fingerprint whatsoever tells the two active trades apart. *)
Theorem resubmission_is_not_rejected (opp : Finder.ArbitrageOpportunity)
    (st : SessionState) :
  active_trades (submit_twice opp st).1 = active_trades st ++ [opp; opp] /\
  (submit_twice opp st).2 =
    [Success "Trade executed successfully!";
     Success "Trade executed successfully!"] /\
  forall K (fp : Finder.ArbitrageOpportunity -> K),
    ~ single_in_flight fp (submit_twice opp st).1.
Proof.
  split; [|split].
  - now rewrite submit_twice_spec.
  - now rewrite submit_twice_spec.
  - intros K fp. apply twice_active_not_single.
Qed.

(** C2, counterexample: the sample opportunity submitted twice from the
    initial session. There are two active trades and no rejection, and the
    two trades have the same fingerprint however prices are bucketed. *)
Lemma duplicate_submission_accepted :
  ~ one_trade_one_rejection (Finder.sample_opportunity 0) init /\
  (forall bucket,
     ~ single_in_flight (fingerprint bucket)
         (submit_twice (Finder.sample_opportunity 0) init).1).
Proof.
  split.
  - unfold one_trade_one_rejection. rewrite submit_twice_spec. cbn.
    intros [H _]. discriminate.
  - intros bucket. apply twice_active_not_single.
Qed.

End DashboardFacts.

(** ** Examples *)

Section Examples.
Import Finder.

Lemma below_threshold_never_emitted_witness :
  (profit_percentage low_profit < min_profit_threshold init)%Q /\
  validate_opportunity (advisory := analysis_times_out) init low_profit (enter 0%Q)
    = (inr false, enter 0%Q).
Proof.
  assert (profit_percentage low_profit < min_profit_threshold init)%Q as H
    by reflexivity.
  split; [exact H|].
  exact (proj1 (below_threshold_never_emitted (advisory := analysis_times_out)
                  (scanner := placeholder_scanner) init accept_all)
           low_profit (enter 0%Q) H).
Defined.

Lemma gas_gate_witness :
  ((estimated_profit_usd thin_margin
      < Py.sum (map snd (gas_costs thin_margin)))%Q /\
   validate_opportunity (advisory := analysis_times_out) init thin_margin
     (enter 0%Q) = (inr false, enter 0%Q)) /\
  ((Py.sum (map snd (gas_costs (sample_opportunity 0)))
      <= estimated_profit_usd (sample_opportunity 0))%Q /\
   validate_opportunity (advisory := analysis_times_out) init
     (sample_opportunity 0) (enter 0%Q) = (inr true, enter 0%Q)).
Proof.
  assert (estimated_profit_usd thin_margin
            < Py.sum (map snd (gas_costs thin_margin)))%Q as H by reflexivity.
  assert (Py.sum (map snd (gas_costs (sample_opportunity 0)))
            <= estimated_profit_usd (sample_opportunity 0))%Q as H'
    by (vm_compute; discriminate).
  assert (min_profit_threshold init <= profit_percentage (sample_opportunity 0))%Q
    as Hp by (vm_compute; discriminate).
  split; (split; [assumption|]).
  - exact (proj1 (gas_gate (advisory := analysis_times_out) init thin_margin
                    (enter 0%Q)) H).
  - exact (proj2 (proj2 (gas_gate (advisory := analysis_times_out) init
                           (sample_opportunity 0) (enter 0%Q)) H') Hp).
Defined.



Lemma failed_analysis_is_skipped_witness :
  Strategy.analyze_opportunity (advisory := analysis_times_out)
    (ai_strategy init) (opportunity_data (sample_opportunity 0)) 0%Q
    = (inr None, 0%Q) /\
  analyze_each (advisory := analysis_times_out) init [sample_opportunity 0] []
    (enter 0%Q)
  = (inr [],
     {| world := 0%Q;
        consulted := [AnalyzeOpportunity (opportunity_data (sample_opportunity 0))];
        emitted := [] |}).
Proof.
  destruct (failed_analysis_is_skipped (advisory := analysis_times_out)
              init (sample_opportunity 0)
              [] [] (enter 0%Q) "timeout" 0%Q eq_refl) as (H1 & H2 & _).
  split; [exact H1 | exact H2].
Defined.

(** C5, counterexample: the sentiment call of the advisory service times
    out, and the analysis of the sample opportunity recommends execution,
    with the highest score. *)
Lemma sentiment_failure_recommended :
  Strategy.text_sentiment (Advisory := sentiment_times_out) "analysis" 0%Q
    = (inl "timeout", 0%Q) /\
  exists a,
    Strategy.analyze_opportunity (advisory := sentiment_times_out)
      (ai_strategy init) (opportunity_data (sample_opportunity 0)) 0%Q
      = (inr (Some a), 0%Q) /\
    Strategy.recommendation a = "execute" /\
    Strategy.risk_score a = 1%Q /\
    recommended (Some a) = true.
Proof.
  split; [reflexivity|].
  eexists. split; [vm_compute; reflexivity|].
  repeat split.
Qed.

(** C8: the score is meant to lie in [0, 1], but for the sample opportunity
    and a sentiment answer of [-3] the computed score is
    [0.5 + 0.12 + 0.1 - 1 = -0.28]. *)
Theorem risk_score_below_zero :
  exists score,
    Strategy._calculate_risk_score (advisory := sentiment_out_of_range)
      "analysis" (opportunity_data (sample_opportunity 0)) 0%Q
      = (inr score, 0%Q) /\
    (score < 0)%Q.
Proof.
  eexists. split; [vm_compute; reflexivity|]. reflexivity.
Qed.


(** With [get_dex_price] as the file has it, every source is in the map. *)
Example placeholder_prices :
  (Prices.fetch_all_prices (quotes := Prices.placeholder_quotes) Prices.init
     ("WETH", "USDT") tt).1
  = inr (list_to_map
           [ ("ethereum_uniswap", Some 0%Q); ("ethereum_sushiswap", Some 0%Q);
             ("bsc_pancakeswap", Some 0%Q); ("polygon_quickswap", Some 0%Q);
             ("avalanche_traderjoe", Some 0%Q) ]).
Proof. vm_compute. reflexivity. Qed.

Lemma resubmission_is_not_rejected_witness :
  Dashboard.active_trades
    (Dashboard.submit_twice (sample_opportunity 0) Dashboard.init).1
  = [sample_opportunity 0; sample_opportunity 0].
Proof.
  exact (proj1 (resubmission_is_not_rejected (sample_opportunity 0)
                  Dashboard.init)).
Defined.

(** The monitoring loop does hand opportunities over: with a service that
    answers, two rounds emit the sample opportunity twice. *)
Example monitor_emits_the_sample :
  map profit_percentage
    (emitted
       (monitor_opportunities
          (advisory := Strategy.scripted (inr "analysis") (inr (8 # 10)%Q))
          (scanner := placeholder_scanner) 2 init accept_all (enter 0%Q)).2)
  = [12 # 10; 12 # 10]%Q.
Proof. vm_compute. reflexivity. Qed.

(** With the analysis call timing out nothing is emitted, and nothing is
    raised. *)
Example monitor_emits_nothing_on_timeout :
  let run :=
    monitor_opportunities (advisory := analysis_times_out)
      (scanner := placeholder_scanner) 2 init accept_all (enter 0%Q) in
  run.1 = inr tt /\ emitted run.2 = [].
Proof. vm_compute. split; reflexivity. Qed.

(** The placeholder venues on an unknown chain: the purchase raises
    [KeyError], nothing else is started. *)
Example unknown_chain_stops_before_bridge :
  let run :=
    Blockchain.execute_arbitrage (legs := Blockchain.placeholder)
      {| Blockchain.source_chain := Some "solana";
         Blockchain.source_dex := Some "raydium";
         Blockchain.target_chain := Some "polygon";
         Blockchain.target_dex := Some "quickswap";
         Blockchain.token_pair := Some ("WETH", "USDT");
         Blockchain.required_capital := Some 10%Q |}
      (Blockchain.enter tt) in
  run.1 = inr {| Blockchain.success := false;
                 Blockchain.transactions := [];
                 Blockchain.errors := ["'solana'"] |} /\
  length (Blockchain.journal run.2) = 1.
Proof. vm_compute. split; reflexivity. Qed.

(** The bridge timing out after the purchase: one transaction, one error,
    two legs started, no sale. *)
Example bridge_timeout_strands_the_purchase :
  Blockchain.timeout_run.1 =
    inr {| Blockchain.success := false;
           Blockchain.transactions :=
             [Blockchain.DexTrade "ethereum" "uniswap" "buy" 10
                (10 * (99 # 100)) "0x..."];
           Blockchain.errors := ["bridge timeout"] |} /\
  map (Blockchain.kind_of ∘ fst) (Blockchain.journal Blockchain.timeout_run.2)
    = [Blockchain.Acquire; Blockchain.Bridge].
Proof. vm_compute. split; reflexivity. Qed.

End Examples.

(** * Further properties *)

(** ** [execute_arbitrage] *)

Section MoreExecutionFacts.
Import Blockchain.
Import Execution.
Context {W : Type} {legs : Legs W}.

(** X1: when one of the keys read before the purchase ([source_chain],
    [source_dex], [required_capital], [token_pair]) is absent from the
    opportunity, [execute_arbitrage] starts no leg and leaves the outside
    world as it was: the result is a failure without transactions whose only
    error is the [KeyError] of the first absent key. *)
Theorem missing_source_key_starts_no_leg (opp : OpportunityDict) (w : W)
    (k : string) :
  first_missing_source_key opp = Some k ->
  execute_arbitrage opp (enter w) =
    (inr {| success := false; transactions := []; errors := [Py.KeyError k] |},
     {| world := w;
        result := {| success := false; transactions := [];
                     errors := [Py.KeyError k] |};
        journal := [] |}).
Proof.
  unfold first_missing_source_key, execute_arbitrage, execute_arbitrage_try,
    source_transaction, append_error.
  py_unfold.
  destruct (source_chain opp), (source_dex opp), (required_capital opp),
    (token_pair opp); intros [= <-]; reflexivity.
Qed.

(** X2: the keys of the target side are read only after the earlier legs
    have run. With a purchase that returns, an absent [target_chain] is found
    after the purchase is recorded, and (on a cross-chain trade whose bridge
    returns) an absent [target_dex] after purchase and bridge are recorded;
    in both cases the result is a failure that keeps those transactions. *)
Theorem missing_target_key_found_late (opp : OpportunityDict) (w : W)
    (src sdex : string) (cap : Q) (pair : string * string)
    (buy_tx : Transaction) (w1 : W) :
  source_chain opp = Some src -> source_dex opp = Some sdex ->
  required_capital opp = Some cap -> token_pair opp = Some pair ->
  execute_dex_trade src sdex "buy" cap pair w = (inr buy_tx, w1) ->
  (target_chain opp = None ->
   execute_arbitrage opp (enter w) =
     (inr {| success := false; transactions := [buy_tx];
             errors := [Py.KeyError "target_chain"] |},
      {| world := w1;
         result := {| success := false; transactions := [buy_tx];
                      errors := [Py.KeyError "target_chain"] |};
         journal := [(CallDexTrade src sdex "buy" cap pair, inr buy_tx)] |})) /\
  (forall tgt bridge_tx w2,
     target_chain opp = Some tgt -> src <> tgt -> target_dex opp = None ->
     bridge_assets src tgt pair.1 (received_amount buy_tx) w1
       = (inr bridge_tx, w2) ->
     execute_arbitrage opp (enter w) =
       (inr {| success := false; transactions := [buy_tx; bridge_tx];
               errors := [Py.KeyError "target_dex"] |},
        {| world := w2;
           result := {| success := false; transactions := [buy_tx; bridge_tx];
                        errors := [Py.KeyError "target_dex"] |};
           journal :=
             [(CallDexTrade src sdex "buy" cap pair, inr buy_tx);
              (CallBridge src tgt pair.1 (received_amount buy_tx),
               inr bridge_tx)] |})).
Proof.
  intros Hsrc Hsdex Hcap Hpair Hbuy.
  unfold execute_arbitrage, execute_arbitrage_try, source_transaction,
    bridge_if_necessary, target_transaction, await_dex_trade, await_bridge,
    append_transaction, append_error.
  py_unfold. rewrite Hsrc, Hsdex, Hcap, Hpair. cbn. rewrite Hbuy. cbn.
  split.
  - intros ->. reflexivity.
  - intros tgt bridge_tx w2 -> Hne -> Hbridge.
    rewrite bool_decide_true by exact Hne. cbn. rewrite Hbridge. reflexivity.
Qed.

(** *** The order in which legs are started *)

Local Abbreviation kinds s := (map (kind_of ∘ fst) (journal s)).

Lemma source_transaction_kinds (opp : OpportunityDict) (s : State W) :
  match source_transaction opp s with
  | (inr _, s') => kinds s' = kinds s ++ [Acquire]
  | (inl _, s') => kinds s' = kinds s \/ kinds s' = kinds s ++ [Acquire]
  end.
Proof.
  unfold source_transaction, await_dex_trade, append_transaction. py_unfold.
  destruct (source_chain opp) as [chain|]; [|cbn; auto].
  destruct (source_dex opp) as [dex|]; [|cbn; auto].
  destruct (required_capital opp) as [amt|]; [|cbn; auto].
  destruct (token_pair opp) as [pair|]; [|cbn; auto].
  destruct (execute_dex_trade chain dex "buy" amt pair (world s))
    as [[e|tx] w1]; cbn; rewrite map_app; auto.
Qed.

Lemma bridge_if_necessary_kinds (opp : OpportunityDict) (buy_tx : Transaction)
    (s : State W) :
  match bridge_if_necessary opp buy_tx s with
  | (inr None, s') =>
      kinds s' = kinds s /\
      exists chain, source_chain opp = Some chain /\ target_chain opp = Some chain
  | (inr (Some _), s') =>
      kinds s' = kinds s ++ [Bridge] /\
      exists src tgt,
        source_chain opp = Some src /\ target_chain opp = Some tgt /\ src <> tgt
  | (inl _, s') =>
      kinds s' = kinds s \/
      (kinds s' = kinds s ++ [Bridge] /\
       exists src tgt,
         source_chain opp = Some src /\ target_chain opp = Some tgt /\
         src <> tgt)
  end.
Proof.
  unfold bridge_if_necessary, await_bridge, append_transaction. py_unfold.
  destruct (source_chain opp) as [src|]; [|cbn; auto].
  destruct (target_chain opp) as [tgt|]; [|cbn; auto].
  case_bool_decide as Hne.
  - destruct (token_pair opp) as [pair|]; [|cbn; auto].
    destruct (bridge_assets src tgt pair.1 (received_amount buy_tx) (world s))
      as [[e|tx] w1]; cbn; rewrite map_app; [right|]; split; eauto.
  - subst tgt. split; [reflexivity|]. now exists src.
Qed.

Lemma target_transaction_kinds (opp : OpportunityDict) (buy_tx : Transaction)
    (bridge_tx : option Transaction) (s : State W) :
  match target_transaction opp buy_tx bridge_tx s with
  | (inr _, s') => kinds s' = kinds s ++ [Dispose]
  | (inl _, s') => kinds s' = kinds s \/ kinds s' = kinds s ++ [Dispose]
  end.
Proof.
  unfold target_transaction, await_dex_trade, append_transaction. py_unfold.
  destruct (target_chain opp) as [chain|]; [|cbn; auto].
  destruct (target_dex opp) as [dex|]; [|cbn; auto].
  destruct (token_pair opp) as [pair|]; [|cbn; auto].
  destruct (execute_dex_trade chain dex "sell" _ pair (world s))
    as [[e|tx] w1]; cbn; rewrite map_app; auto.
Qed.

(** The handler and the [return] leave the journal alone. *)
Lemma execute_arbitrage_journal (opp : OpportunityDict) (s : State W) :
  journal (execute_arbitrage opp s).2 = journal (execute_arbitrage_try opp s).2.
Proof.
  unfold execute_arbitrage, append_error. py_unfold.
  now destruct (execute_arbitrage_try opp s) as [[e|[]] s1].
Qed.

Lemma execute_arbitrage_try_kinds (opp : OpportunityDict) (w : W) :
  (forall src tgt,
     source_chain opp = Some src -> target_chain opp = Some tgt ->
     kinds (execute_arbitrage_try opp (enter w)).2 `prefix_of` plan src tgt) /\
  (kinds (execute_arbitrage_try opp (enter w)).2
     `prefix_of` [Acquire; Bridge; Dispose] \/
   kinds (execute_arbitrage_try opp (enter w)).2 `prefix_of` [Acquire; Dispose]).
Proof.
  unfold execute_arbitrage_try.
  pose proof (source_transaction_kinds opp (enter w)) as H1.
  destruct (source_transaction opp (enter w)) as [[e|buy_tx] s1] eqn:E1.
  { rewrite (bind_inl _ _ _ _ _ E1). cbn in *. unfold plan.
    destruct H1 as [-> | ->]; (split; [intros src tgt _ _; case_bool_decide|left]);
      try apply prefix_nil; now apply prefix_cons, prefix_nil. }
  rewrite (bind_inr _ _ _ _ _ E1). cbn in H1.
  pose proof (bridge_if_necessary_kinds opp buy_tx s1) as H2.
  destruct (bridge_if_necessary opp buy_tx s1) as [[e|bridge_tx] s2] eqn:E2.
  { rewrite (bind_inl _ _ _ _ _ E2). cbn. unfold plan.
    destruct H2 as [-> | [-> (src & tgt & Hs & Ht & Hne)]]; rewrite H1.
    - split; [intros src tgt _ _; case_bool_decide|left];
        now apply prefix_cons, prefix_nil.
    - split; [|left; now do 2 apply prefix_cons; apply prefix_nil].
      intros src' tgt' Hs' Ht'.
      assert (src' = src) as -> by congruence.
      assert (tgt' = tgt) as -> by congruence.
      rewrite bool_decide_true by exact Hne.
      now do 2 apply prefix_cons; apply prefix_nil. }
  rewrite (bind_inr _ _ _ _ _ E2).
  pose proof (target_transaction_kinds opp buy_tx bridge_tx s2) as H3.
  assert (forall s3 : State W, kinds s3 = kinds s2 \/ kinds s3 = kinds s2 ++ [Dispose] ->
            (forall src tgt,
               source_chain opp = Some src -> target_chain opp = Some tgt ->
               kinds s3 `prefix_of` plan src tgt) /\
            (kinds s3 `prefix_of` [Acquire; Bridge; Dispose] \/
             kinds s3 `prefix_of` [Acquire; Dispose])) as Hend.
  { intros s3 Hs3. unfold plan. destruct bridge_tx as [bridge_tx|].
    - destruct H2 as [Hk (src & tgt & Hs & Ht & Hne)]. rewrite Hk, H1 in Hs3.
      split; [|left; destruct Hs3 as [-> | ->]; cbn;
               [now do 2 apply prefix_cons; apply prefix_nil | reflexivity]].
      intros src' tgt' Hs' Ht'.
      assert (src' = src) as -> by congruence.
      assert (tgt' = tgt) as -> by congruence.
      rewrite bool_decide_true by exact Hne.
      destruct Hs3 as [-> | ->]; cbn;
        [now do 2 apply prefix_cons; apply prefix_nil | reflexivity].
    - destruct H2 as [Hk (chain & Hs & Ht)]. rewrite Hk, H1 in Hs3.
      split; [|right; destruct Hs3 as [-> | ->]; cbn;
               [now apply prefix_cons, prefix_nil | reflexivity]].
      intros src' tgt' Hs' Ht'.
      assert (src' = chain) as -> by congruence.
      assert (tgt' = chain) as -> by congruence.
      rewrite bool_decide_false by auto.
      destruct Hs3 as [-> | ->]; cbn;
        [now apply prefix_cons, prefix_nil | reflexivity]. }
  destruct (target_transaction opp buy_tx bridge_tx s2) as [[e|[]] s3] eqn:E3.
  - rewrite (bind_inl _ _ _ _ _ E3). cbn. apply Hend. exact H3.
  - rewrite (bind_inr _ _ _ _ _ E3). unfold set_success. py_unfold. cbn.
    apply Hend. now right.
Qed.

(** X3: whatever the opportunity and the legs do, no leg is started twice
    or out of order: the kinds of the legs started form a prefix of acquire,
    bridge, dispose or of acquire, dispose, and a prefix of the plan of the
    trade when both chains are given (so no bridge is ever started between
    equal chains). *)
Theorem legs_start_in_plan_order (opp : OpportunityDict) (w : W) :
  (map (kind_of ∘ fst) (journal (execute_arbitrage opp (enter w)).2)
     `prefix_of` [Acquire; Bridge; Dispose] \/
   map (kind_of ∘ fst) (journal (execute_arbitrage opp (enter w)).2)
     `prefix_of` [Acquire; Dispose]) /\
  (forall src tgt,
     source_chain opp = Some src -> target_chain opp = Some tgt ->
     map (kind_of ∘ fst) (journal (execute_arbitrage opp (enter w)).2)
       `prefix_of` plan src tgt).
Proof.
  rewrite execute_arbitrage_journal.
  destruct (execute_arbitrage_try_kinds opp w) as [H1 H2]. now split.
Qed.

Lemma receipts_returned (l : list (LegCall * Transaction)) :
  receipts (returned l) = map snd l.
Proof.
  unfold receipts, returned. induction l as [|[c tx] l IH]; cbn; [reflexivity|].
  now rewrite IH.
Qed.

(** X4: the transactions of the result are exactly what the legs that
    returned have returned, in the order they were started; there are at
    most three of them and at most one error. *)
Theorem transactions_are_the_receipts (opp : OpportunityDict) (w : W) :
  exists r s',
    execute_arbitrage opp (enter w) = (inr r, s') /\
    transactions r = receipts (journal s') /\
    length (errors r) <= 1 /\
    length (transactions r) <= 3.
Proof.
  destruct (execute_arbitrage_cases opp w)
    as [(s' & Hrun & Hc)|(e & s1 & s' & Hrun & Hs & Hj & Hr)];
    exists (result s'), s'; (split; [exact Hrun|]).
  - destruct Hc as [chain sdex tdex pair cap buy_tx w1 sell_tx _ _ _ _ _ _ _ _ Hj Hr
                   |src tgt sdex tdex pair cap buy_tx w1 bridge_tx w2 sell_tx
                      _ _ _ _ _ _ _ _ _ _ Hj Hr];
      rewrite Hr, Hj, receipts_returned; cbn; repeat split; lia.
  - destruct Hs as (Hf & He & l & Htx & Hjl). rewrite Hr, Hj, He, Htx. cbn.
    split; [|split; [lia|]].
    + destruct Hjl as [-> | [c ->]]; [now rewrite receipts_returned|].
      unfold receipts. rewrite omap_app. cbn. rewrite app_nil_r.
      apply (eq_sym (receipts_returned l)).
    + destruct (execute_arbitrage_try_kinds opp w) as [_ Hk].
      rewrite <- !execute_arbitrage_journal, Hrun in Hk. cbn in Hk. rewrite Hj in Hk.
      assert (length (journal s1) <= 3) as Hlen.
      { destruct Hk as [Hk|Hk]; apply prefix_length in Hk;
          rewrite length_map in Hk; cbn in Hk; lia. }
      rewrite length_map.
      destruct Hjl as [Hjl|[c Hjl]]; rewrite Hjl in Hlen; unfold returned in Hlen;
        rewrite ?length_app, length_map in Hlen; lia.
Qed.

End MoreExecutionFacts.

Section MorePlaceholderFacts.
Import Blockchain.
Import Execution.






End MorePlaceholderFacts.

(** ** The risk score and the analysis *)

Lemma min_le_l a b : (Py.min a b <= a)%Q.
Proof.
  unfold Py.min. destruct (Py.lt b a) eqn:E.
  - apply lt_spec in E. now apply Qlt_le_weak.
  - apply Qle_refl.
Qed.

Lemma min_mono a a' b : (a <= a')%Q -> (Py.min a b <= Py.min a' b)%Q.
Proof.
  intros H. apply min_glb; [|apply min_le_r].
  eapply Qle_trans; [apply min_le_l | exact H].
Qed.

Lemma max_ge_r a b : (b <= Py.max a b)%Q.
Proof.
  unfold Py.max, Py.gt. destruct (Py.lt a b) eqn:E.
  - apply Qle_refl.
  - now apply lt_false in E.
Qed.

Lemma max_lub a b c : (a <= c)%Q -> (b <= c)%Q -> (Py.max a b <= c)%Q.
Proof. unfold Py.max. now destruct (Py.gt b a). Qed.

Lemma max_mono a b b' : (b <= b')%Q -> (Py.max a b <= Py.max a b')%Q.
Proof.
  intros H. apply max_lub; [apply max_ge_l|].
  eapply Qle_trans; [exact H | apply max_ge_r].
Qed.

Lemma div_const_mono a b c : (0 < c)%Q -> (a <= b)%Q -> (a / c <= b / c)%Q.
Proof.
  intros Hc H. unfold Qdiv. apply Qmult_le_compat_r; [exact H|].
  apply Qlt_le_weak, Qinv_lt_0_compat, Hc.
Qed.

Section MoreStrategyFacts.
Import Strategy.
Context {W : Type} {advisory : Advisory W}.

(** [analyze_opportunity] unfolded along the outcome of the analysis call. *)
Lemma analyze_opportunity_cases (self : AIStrategy) (data : OpportunityData)
    (w : W) :
  match chat_analysis data w with
  | (inl _, w1) => analyze_opportunity self data w = (inr None, w1)
  | (inr text, w1) =>
      exists score w2,
        _calculate_risk_score text data w1 = (inr score, w2) /\
        analyze_opportunity self data w =
          (inr (Some {| analysis := text;
                        risk_score := score;
                        recommendation :=
                          if Py.ge score (confidence_threshold self)
                          then "execute" else "skip";
                        confidence := score;
                        timestamp := now_isoformat w2 |}), w2)
  end.
Proof.
  unfold analyze_opportunity. py_unfold.
  destruct (chat_analysis data w) as [[e|text] w1]; [reflexivity|].
  destruct (risk_score_at_most_one text data w1) as (score & w2 & Hs & _).
  exists score, w2. split; [exact Hs|]. now rewrite Hs.
Qed.




(** X11: when the analysis call returns and the sentiment call fails, an
    opportunity with a non-negative profit percentage gets the score 1 and,
    for a confidence threshold of at most 1, the recommendation
    ["execute"]. *)
Theorem sentiment_failure_gives_top_score (self : AIStrategy)
    (data : OpportunityData) (text : string) (w w1 w2 : W) (e : Py.Exn) :
  chat_analysis data w = (inr text, w1) ->
  text_sentiment text w1 = (inl e, w2) ->
  (0 <= profit_percentage data)%Q ->
  (confidence_threshold self <= 1)%Q ->
  exists a,
    analyze_opportunity self data w = (inr (Some a), w2) /\
    (risk_score a == 1)%Q /\ recommendation a = "execute".
Proof.
  intros Hchat Hsent Hp Hthr.
  pose proof (analyze_opportunity_cases self data w) as H. rewrite Hchat in H.
  destruct H as (score & w2' & Hs & H).
  destruct (_calculate_risk_score_returns text data w1) as (s & w3 & Hsen & Hs').
  rewrite _analyze_text_sentiment_cases, Hsent in Hsen. injection Hsen as <- <-.
  rewrite Hs in Hs'. injection Hs' as Hscore <-.
  assert (1 <= score)%Q as Hone.
  { subst score. apply min_glb; [|lra].
    pose proof (max_ge_l 0 ((2 # 10) - required_capital data / 100000)).
    assert (0 <= Py.min (profit_percentage data / 10) (3 # 10))%Q.
    { apply min_glb; [|lra]. apply Qle_shift_div_l; lra. }
    lra. }
  eexists. split; [exact H|]. cbn. split.
  - apply Qle_antisym; [subst score; apply min_le_r | exact Hone].
  - rewrite (proj2 (ge_spec _ _)); [reflexivity|]. lra.
Qed.

(** X10: when the profit percentage is not negative and the sentiment call
    fails or answers at least -1, the score of the analysis returned lies
    between 0 and 1. *)
Theorem analysis_score_not_negative (self : AIStrategy)
    (data : OpportunityData) (text : string) (w w1 w' : W) (a : Analysis) :
  chat_analysis data w = (inr text, w1) ->
  (0 <= profit_percentage data)%Q ->
  match (text_sentiment text w1).1 with
  | inr answer => (-1 <= answer)%Q
  | inl _ => True
  end ->
  analyze_opportunity self data w = (inr (Some a), w') ->
  (0 <= risk_score a <= 1)%Q.
Proof.
  intros Hchat Hp Hans Hrun.
  pose proof (analyze_opportunity_cases self data w) as H. rewrite Hchat in H.
  destruct H as (score & w2 & Hs & H). rewrite H in Hrun.
  injection Hrun as <- _. cbn.
  destruct (risk_score_not_negative text data w1 Hp Hans) as (s0 & w0 & Hs0 & H0).
  destruct (risk_score_at_most_one text data w1) as (s1 & w3 & Hs1 & H1).
  rewrite Hs in Hs0, Hs1. injection Hs0 as <- _. injection Hs1 as <- _.
  now split.
Qed.

(** X12: for the same analysis text and the same state of the service, the
    risk score does not decrease when the profit percentage rises or the
    required capital falls. *)
Theorem risk_score_monotone (text : string) (d1 d2 : OpportunityData) (w : W) :
  (profit_percentage d1 <= profit_percentage d2)%Q ->
  (required_capital d2 <= required_capital d1)%Q ->
  exists s1 s2 w',
    _calculate_risk_score text d1 w = (inr s1, w') /\
    _calculate_risk_score text d2 w = (inr s2, w') /\
    (s1 <= s2)%Q.
Proof.
  intros Hp Hc.
  destruct (_calculate_risk_score_returns text d1 w) as (s & w' & Hs & H1).
  destruct (_calculate_risk_score_returns text d2 w) as (s' & w'' & Hs' & H2).
  rewrite Hs in Hs'. injection Hs' as <- <-.
  eexists _, _, w'. split; [exact H1|]. split; [exact H2|].
  apply min_mono.
  assert (Py.min (profit_percentage d1 / 10) (3 # 10)
          <= Py.min (profit_percentage d2 / 10) (3 # 10))%Q
    by (apply min_mono, div_const_mono; [reflexivity | exact Hp]).
  assert (Py.max 0 ((2 # 10) - required_capital d1 / 100000)
          <= Py.max 0 ((2 # 10) - required_capital d2 / 100000))%Q.
  { apply max_mono.
    assert (required_capital d2 / 100000 <= required_capital d1 / 100000)%Q
      by (apply div_const_mono; [reflexivity | exact Hc]).
    lra. }
  lra.
Qed.

End MoreStrategyFacts.

(** ** [find_opportunities], [validate_opportunity], [monitor_opportunities] *)

Section MoreFinderFacts.
Import Finder.
Import Simulation.
Context {W : Type} {advisory : Strategy.Advisory W} {scanner : Scanner W}.

(** *** [find_opportunities] *)





(** *** [validate_opportunity] past the deterministic gates *)



(** *** Exceptions in [monitor_opportunities] *)


End MoreFinderFacts.

(** *** [simulate_execution] *)

Section SimulationFacts.
Import Finder.
Import Simulation.

Lemma simulate_steps_spec (path : list Strategy.PathStep)
    (acc : list SimulatedStep) :
  match simulate_steps path acc with
  | inr steps =>
      Forall (fun step => is_Some (step_get step "action")) path /\
      steps = acc ++
        map (fun step =>
               {| action := default "" (step_get step "action");
                  status := "simulated";
                  details := "Simulated " +:+ default "" (step_get step "action")
                             +:+ " on " +:+ default "" (step_get step "chain") |})
            path
  | inl e =>
      e = Py.KeyError "action" /\
      Exists (fun step => step_get step "action" = None) path
  end.
Proof.
  revert acc. induction path as [|step rest IH]; intros acc; cbn.
  - split; [constructor | now rewrite app_nil_r].
  - destruct (step_get step "action") as [act|] eqn:Hact.
    + specialize (IH (acc ++
        [{| action := act; status := "simulated";
            details := "Simulated " +:+ act +:+ " on "
                       +:+ default "" (step_get step "chain") |}])).
      destruct (simulate_steps rest _) as [e|steps].
      * destruct IH as [-> Hex]. split; [reflexivity|]. now right.
      * destruct IH as [Hall ->]. split; [constructor; eauto|].
        now rewrite <- app_assoc.
    + split; [reflexivity|]. now left.
Qed.

(** X18: [simulate_execution] raises [KeyError] ('action') exactly when a
    step of the execution path has no action. Otherwise it reports success,
    the estimated profit as expected profit, no risks, one simulated step
    per step of the path in order, and insights exactly when the opportunity
    carries an analysis. *)
Theorem simulate_execution_spec (opp : ArbitrageOpportunity) :
  match simulate_execution opp with
  | inr sim =>
      Forall (fun step => is_Some (step_get step "action")) (execution_path opp) /\
      success sim = true /\
      expected_profit sim = estimated_profit_usd opp /\
      risks sim = [] /\
      map action (steps sim)
        = map (fun step => default "" (step_get step "action"))
            (execution_path opp) /\
      Forall (fun st => status st = "simulated") (steps sim) /\
      (ai_insights sim = None <-> ai_analysis opp = None)
  | inl e =>
      e = Py.KeyError "action" /\
      Exists (fun step => step_get step "action" = None) (execution_path opp)
  end.
Proof.
  unfold simulate_execution.
  pose proof (simulate_steps_spec (execution_path opp) []) as H.
  destruct (simulate_steps (execution_path opp) []) as [e|steps]; [exact H|].
  destruct H as [Hall ->]. cbn.
  split; [exact Hall|]. repeat split; try discriminate.
  - now rewrite map_map.
  - apply Forall_map. cbn. now apply Forall_true.
  - destruct (ai_analysis opp); [discriminate | reflexivity].
  - now intros ->.
Qed.

End SimulationFacts.

(** ** [fetch_all_prices] for any table *)

Section MorePricesFacts.
Import Prices.
Context {W : Type} {quotes : Quotes W}.







End MorePricesFacts.

(** ** [monitor_price_changes] *)

Section ItemsFacts.
Import Prices.
Import PriceMonitor.

Lemma dict_get_set d k v k' :
  dict_get (dict_set d k v) k' = if decide (k = k') then Some v else dict_get d k'.
Proof.
  induction d as [|[k0 v0] rest IH]; cbn.
  - now destruct (decide (k = k')).
  - destruct (decide (k0 = k)) as [->|Hne]; cbn.
    + now destruct (decide (k = k')).
    + destruct (decide (k0 = k')) as [->|Hne'].
      * now rewrite decide_False by congruence.
      * exact IH.
Qed.

(** The ordered dict has the bindings of the map of [collect_sources]. *)
Lemma collect_items_sources srcs results idx items prices :
  (forall k, dict_get items k = prices !! k) ->
  match collect_items srcs results idx items,
        collect_sources srcs results idx prices with
  | inr (i, items'), inr (j, prices') =>
      i = j /\ forall k, dict_get items' k = prices' !! k
  | inl e, inl e' => e = e'
  | _, _ => False
  end.
Proof.
  revert idx items prices.
  induction srcs as [|src rest IH]; intros idx items prices Hsame; cbn.
  - now split.
  - destruct (index results idx) as [e|r]; [reflexivity|].
    apply IH. destruct r as [e|price]; [exact Hsame|].
    intros k. rewrite dict_get_set, lookup_insert.
    destruct (decide (market src = k)); [reflexivity | apply Hsame].
Qed.

End ItemsFacts.

Lemma collect_sources_spec_total srcs results idx prices :
  idx + length srcs <= length results ->
  exists prices',
    Prices.collect_sources srcs results idx prices
      = inr (idx + length srcs, prices').
Proof.
  revert idx prices.
  induction srcs as [|src rest IH]; intros idx prices Hlen; cbn.
  - exists prices. now rewrite Nat.add_0_r.
  - cbn in Hlen. unfold Prices.index.
    destruct (results !! idx) as [r|] eqn:Hr.
    2: { apply lookup_ge_None in Hr. lia. }
    destruct (IH (S idx)
                (match r with
                 | inl _ => prices
                 | inr price => <[Prices.market src := price]> prices
                 end)) as (prices' & ->); [lia|].
    exists prices'. f_equal. f_equal. lia.
Qed.

Section MonitorFacts.
Import Prices.
Import PriceMonitor.
Context {W : Type} {quotes : Quotes W} {pause : Pause W}.

(** The ordered model of the returned dict has the bindings of the map. *)
Lemma fetch_all_items_bindings (self : PriceFetcher) (pair : string * string)
    (w : W) :
  exists items prices w',
    fetch_all_items self pair w = (inr items, w') /\
    fetch_all_prices self pair w = (inr prices, w') /\
    forall k, dict_get items k = prices !! k.
Proof.
  unfold fetch_all_items, fetch_all_prices.
  pose proof (gather_length (tasks_of self pair) w) as Hlen.
  rewrite tasks_of_length in Hlen.
  destruct (gather (tasks_of self pair) w) as [results w'] eqn:Hg. cbn in *.
  rewrite collect_chains_sources.
  pose proof (collect_items_sources (sources self) results 0 [] ∅) as H.
  destruct (collect_sources_spec_total (sources self) results 0 ∅)
    as (prices & Hrun); [lia|].
  rewrite Hrun in *.
  destruct (collect_items (sources self) results 0 []) as [e|[i items]].
  - exfalso. apply H. intros k. now rewrite lookup_empty.
  - exists items, prices, w'. repeat split. apply H.
    intros k. now rewrite lookup_empty.
Qed.

Lemma fetch_all_items_returns (self : PriceFetcher) (pair : string * string)
    (w : W) :
  exists items w', fetch_all_items self pair w = (inr items, w').
Proof.
  destruct (fetch_all_items_bindings self pair w) as (items & _ & w' & H & _).
  now exists items, w'.
Qed.

Lemma notifies_nothing {A} P (m : Py.M (Monitoring W) A) :
  (forall s, notified (m s).2 = notified s) -> notifies P m.
Proof.
  intros H s. exists []. rewrite app_nil_r. split; [apply H | constructor].
Qed.

Lemma notifies_bind {A B} P (m : Py.M (Monitoring W) A)
    (k : A -> Py.M (Monitoring W) B) :
  notifies P m -> (forall a, notifies P (k a)) -> notifies P (Py.bind m k).
Proof.
  intros Hm Hk s. destruct (Hm s) as (new1 & H1 & HP1).
  unfold Py.bind. destruct (m s) as [[e|a] s1] eqn:E.
  - now exists new1.
  - destruct (Hk a s1) as (new2 & H2 & HP2). cbn in H1.
    exists (new1 ++ new2). rewrite H2, H1, app_assoc.
    split; [reflexivity|]. now apply Forall_app.
Qed.

Lemma notifies_on_world {A} P (m : Py.M W A) : notifies P (on_world m).
Proof.
  apply notifies_nothing. intros s. unfold on_world. now destruct (m (world s)).
Qed.

Lemma notifies_compare callback previous current market price :
  (market, price) ∈ current ->
  notifies (W := W) (significant previous current)
    (compare callback previous market price).
Proof.
  intros Hin. unfold compare.
  destruct (dict_get previous market) as [[q|]|] eqn:Hget;
    try (apply notifies_nothing; intros s; now destruct price).
  destruct price as [p|]; [|now apply notifies_nothing].
  destruct (Qeq_bool q 0) eqn:Hz; [now apply notifies_nothing|].
  destruct (Py.gt _ _) eqn:Hgt; [|now apply notifies_nothing].
  intros s. exists [(market, q, p)]. unfold await_callback.
  destruct (callback market q p (world s)) as [o w']. cbn.
  split; [reflexivity|]. constructor; [|constructor].
  cbn. split; [exact Hget|]. split; [exact Hin|]. split.
  - intros H0. apply Qeq_bool_iff in H0. congruence.
  - now apply lt_spec.
Qed.

Lemma notifies_compare_each callback previous current all :
  current ⊆ all ->
  notifies (W := W) (significant previous all) (compare_each callback previous current).
Proof.
  induction current as [|[market price] rest IH]; intros Hsub; cbn.
  - now apply notifies_nothing.
  - apply notifies_bind.
    + apply notifies_compare. apply Hsub. now left.
    + intros _. apply IH. intros x Hx. apply Hsub. now right.
Qed.

Lemma notifies_monitor_rounds cycles self pair callback previous :
  notifies (W := W) (fun '(market, previous, price) =>
              ~ (previous == 0)%Q /\
              (1 # 100 < Qabs ((price - previous) / previous))%Q)
    (monitor_rounds cycles self pair callback previous).
Proof.
  revert previous. induction cycles as [|cycles IH]; intros previous; cbn.
  - now apply notifies_nothing.
  - apply notifies_bind; [apply notifies_on_world|]. intros current.
    apply notifies_bind.
    + intros s.
      destruct (notifies_compare_each callback previous current current
                  (reflexivity _) s) as (new & Hnew & HP).
      exists new. split; [exact Hnew|].
      eapply Forall_impl; [exact HP|]. intros [[m q] p] (_ & _ & H1 & H2).
      now split.
    + intros _. apply notifies_bind; [apply notifies_on_world|].
      intros _. apply IH.
Qed.

(** X24: over any number of rounds, every call [monitor_price_changes]
    makes to the callback reports a relative change of more than 1% from a
    previous price that is not zero. *)
Theorem callback_only_on_significant_change (cycles : nat)
    (self : PriceFetcher) (pair : string * string)
    (callback : string -> Q -> Q -> W -> (Py.Exn + unit) * W)
    (s : Monitoring W) :
  exists new,
    notified (monitor_price_changes cycles self pair callback s).2
      = notified s ++ new /\
    Forall (fun '(market, previous, price) =>
              ~ (previous == 0)%Q /\
              (1 # 100 < Qabs ((price - previous) / previous))%Q) new.
Proof. apply notifies_monitor_rounds. Qed.

Lemma compare_each_first_round callback current (s : Monitoring W) :
  compare_each callback [] current s = (inr tt, s).
Proof.
  induction current as [|[market price] rest IH]; [reflexivity|].
  cbn. unfold Py.bind. cbn. exact IH.
Qed.

(** X21: the first round of [monitor_price_changes] never calls the
    callback and never raises, whatever the quotes: there are no previous
    prices to compare with. *)
Theorem first_round_is_silent (self : PriceFetcher) (pair : string * string)
    (callback : string -> Q -> Q -> W -> (Py.Exn + unit) * W)
    (s : Monitoring W) :
  exists s',
    monitor_price_changes 1 self pair callback s = (inr tt, s') /\
    notified s' = notified s.
Proof.
  unfold monitor_price_changes. cbn [monitor_rounds].
  destruct (fetch_all_items_returns self pair (world s)) as (items & w' & Hf).
  unfold Py.bind at 1. unfold on_world at 1. rewrite Hf.
  unfold Py.bind at 1. rewrite compare_each_first_round.
  eexists. split; reflexivity.
Qed.

Lemma compare_each_zero callback previous current market price q
    (s : Monitoring W) :
  (market, price) ∈ current ->
  dict_get previous market = Some (Some q) ->
  (q == 0)%Q ->
  exists e s', compare_each callback previous current s = (inl e, s').
Proof.
  intros Hin Hget Hz. revert s.
  induction current as [|[m p] rest IH]; intros s; [now apply elem_of_nil in Hin|].
  cbn. unfold Py.bind.
  destruct (compare callback previous m p s) as [[e|[]] s1] eqn:Hc; [eauto|].
  apply elem_of_cons in Hin as [Heq|Hin]; [|now apply IH].
  injection Heq as <- <-. exfalso. revert Hc. unfold compare. rewrite Hget.
  destruct price as [p'|]; [|discriminate].
  rewrite (proj2 (Qeq_bool_iff q 0) Hz). discriminate.
Qed.

(** X22: a round of [monitor_price_changes] in which a market quoted in the
    round has a previous price of zero ends with an exception (the division
    by the previous price, unless something raised before it): the
    monitoring stops. *)
Theorem zero_previous_price_raises (cycles : nat) (self : PriceFetcher)
    (pair : string * string)
    (callback : string -> Q -> Q -> W -> (Py.Exn + unit) * W)
    (previous current : Items) (s : Monitoring W) (w1 : W)
    (market : string) (price : option Q) (q : Q) :
  fetch_all_items self pair (world s) = (inr current, w1) ->
  (market, price) ∈ current ->
  dict_get previous market = Some (Some q) ->
  (q == 0)%Q ->
  exists e s',
    monitor_rounds (S cycles) self pair callback previous s = (inl e, s').
Proof.
  intros Hf Hin Hget Hz. cbn [monitor_rounds].
  unfold Py.bind at 1. unfold on_world at 1. rewrite Hf.
  destruct (compare_each_zero callback previous current market price q
              {| world := w1; notified := notified s |} Hin Hget Hz)
    as (e & s' & Hc).
  unfold Py.bind at 1. rewrite Hc. eauto.
Qed.

End MonitorFacts.

Section PlaceholderMonitor.
Import Prices.
Import PriceMonitor.
Context {pause : Pause unit}.

Lemma gather_placeholder (self : PriceFetcher) (pair : string * string) :
  gather (tasks_of (quotes := placeholder_quotes) self pair) tt
  = (replicate (length (sources self)) (inr (Some 0%Q)), tt).
Proof.
  rewrite <- (tasks_of_length (quotes := placeholder_quotes) self pair).
  assert (Forall (fun t : Py.M unit (option Q) => forall w, t w = (inr (Some 0%Q), w))
            (tasks_of (quotes := placeholder_quotes) self pair)) as Hall.
  { unfold tasks_of. apply Forall_flat_map.
    apply Forall_forall. intros [chain dexes] _.
    apply Forall_map, Forall_forall. now intros dex _ w. }
  induction Hall as [|t rest Ht _ IH]; [reflexivity|].
  cbn. rewrite Ht, IH. reflexivity.
Qed.

Lemma dict_set_zero items k :
  Forall (fun kv => kv.2 = Some 0%Q) items ->
  Forall (fun kv => kv.2 = Some 0%Q) (dict_set items k (Some 0%Q)) /\
  dict_set items k (Some 0%Q) <> [].
Proof.
  induction items as [|[k0 v0] rest IH]; intros Hall; cbn.
  - split; [|discriminate]. constructor; [reflexivity | constructor].
  - apply Forall_cons in Hall as [Hv Hrest].
    destruct (decide (k0 = k)); (split; [|discriminate]).
    + constructor; [reflexivity | exact Hrest].
    + constructor; [exact Hv | now apply IH].
Qed.

Lemma collect_items_zero srcs n idx items :
  idx + length srcs <= n ->
  Forall (fun kv => kv.2 = Some 0%Q) items ->
  exists items',
    collect_items srcs (replicate n (inr (Some 0%Q))) idx items
      = inr (idx + length srcs, items') /\
    Forall (fun kv => kv.2 = Some 0%Q) items' /\
    (srcs <> [] -> items' <> []).
Proof.
  revert idx items.
  induction srcs as [|src rest IH]; intros idx items Hlen Hall; cbn.
  - exists items. split; [do 2 f_equal; cbn; lia|].
    split; [exact Hall | congruence].
  - cbn in Hlen. unfold index.
    rewrite lookup_replicate_2 by lia.
    destruct (dict_set_zero items (market src) Hall) as [Hall1 Hne1].
    destruct (IH (S idx) _ ltac:(lia) Hall1) as (items' & Hrun & Hall' & Hne').
    exists items'. rewrite Hrun. split; [f_equal; f_equal; lia|].
    split; [exact Hall'|]. intros _.
    destruct rest as [|src' rest']; [|apply Hne'; discriminate].
    cbn in Hrun. injection Hrun as _ <-. exact Hne1.
Qed.

(** X23: with [get_dex_price] as the file implements it (always [0.0]) and
    at least one supported venue, [monitor_price_changes] raises
    [ZeroDivisionError] in its second round, without having called the
    callback. *)
Theorem placeholder_prices_crash_second_round (cycles : nat)
    (self : PriceFetcher) (pair : string * string)
    (callback : string -> Q -> Q -> unit -> (Py.Exn + unit) * unit)
    (s : Monitoring unit) :
  sources self <> [] ->
  exists s',
    monitor_price_changes (quotes := placeholder_quotes) (S (S cycles)) self
      pair callback s = (inl ZeroDivisionError, s') /\
    notified s' = notified s.
Proof.
  intros Hne.
  destruct (collect_items_zero (sources self) (length (sources self)) 0 []
              ltac:(lia) ltac:(constructor)) as (items & Hrun & Hall & Hitems).
  specialize (Hitems Hne).
  assert (forall w,
            fetch_all_items (quotes := placeholder_quotes) self pair w
            = (inr items, tt)) as Hfetch.
  { intros []. unfold fetch_all_items. now rewrite gather_placeholder, Hrun. }
  unfold monitor_price_changes. cbn [monitor_rounds].
  unfold Py.bind at 1. unfold on_world at 1. rewrite Hfetch.
  unfold Py.bind at 1. rewrite compare_each_first_round.
  unfold Py.bind at 1. unfold on_world at 1. cbn [Py.modify world notified].
  unfold Py.bind at 1. unfold on_world at 1. cbn [world notified].
  rewrite Hfetch.
  destruct items as [|[k v] rest]; [contradiction|].
  apply Forall_cons in Hall as [Hv _]. cbn in Hv. subst v.
  cbn [compare_each]. unfold Py.bind at 1. unfold Py.bind at 1.
  unfold compare. cbn [dict_get]. rewrite decide_True by reflexivity.
  cbn. eexists. split; reflexivity.
Qed.

End PlaceholderMonitor.

(** ** The trade executor *)

Section ExecutorFacts.
Import Executor.

Lemma pop_in_range {A} (l : list A) (i : nat) (x : A) :
  l !! i = Some x -> pop l (Z.of_nat i) = inr (x, delete i l).
Proof.
  intros Hx. pose proof (lookup_lt_Some _ _ _ Hx) as Hlt.
  unfold pop. destruct l as [|y l']; [now rewrite lookup_nil in Hx|].
  set (l := y :: l') in *.
  rewrite (proj2 (Z.ltb_ge _ _)) by lia.
  rewrite (proj2 (Z.leb_le _ _)) by lia.
  rewrite (proj2 (Z.ltb_lt _ _)) by lia.
  cbn [andb]. now rewrite Nat2Z.id, Hx.
Qed.

Lemma pop_negative {A} (l : list A) (i : Z) :
  (- Z.of_nat (length l) <= i < 0)%Z ->
  pop l i = pop l (i + Z.of_nat (length l)).
Proof.
  intros Hi. unfold pop. destruct l as [|y l']; [reflexivity|].
  set (l := y :: l') in *.
  rewrite (proj2 (Z.ltb_lt i 0)) by lia.
  now rewrite (proj2 (Z.ltb_ge (i + Z.of_nat (length l)) 0)) by lia.
Qed.

Lemma pop_out_of_range {A} (l : list A) (i : Z) :
  (i < - Z.of_nat (length l) \/ Z.of_nat (length l) <= i)%Z ->
  exists e, pop l i = inl e.
Proof.
  intros Hi. unfold pop. destruct l as [|y l']; [eauto|].
  set (l := y :: l') in *.
  destruct (i <? 0)%Z eqn:Hneg.
  - apply Z.ltb_lt in Hneg.
    rewrite (proj2 (Z.leb_gt _ _)) by lia. eauto.
  - apply Z.ltb_ge in Hneg.
    rewrite (proj2 (Z.ltb_ge _ _)) by lia. rewrite andb_false_r. eauto.
Qed.

(** X25: [cancel_trade] with an index outside the active trades (at or
    beyond their number, or below minus their number) changes nothing of
    the session and shows an error. *)
Theorem cancel_out_of_range (now : Q) (trade_idx : Z) (st : Session) :
  (trade_idx < - Z.of_nat (length (active_trades st)) \/
   Z.of_nat (length (active_trades st)) <= trade_idx)%Z ->
  exists e,
    cancel_trade now trade_idx st
    = (st, [Dashboard.Error ("Error cancelling trade: " +:+ e)]).
Proof.
  intros Hi. unfold cancel_trade.
  destruct (pop_out_of_range (active_trades st) trade_idx Hi) as [e ->].
  now exists e.
Qed.

Lemma cancel_in_range (now : Q) (i : nat) (trade : nat) (st : Session) :
  active_trades st !! i = Some trade ->
  cancel_trade now (Z.of_nat i) st =
    ({| heap := alter (mark_cancelled now) trade (heap st);
        opportunities := opportunities st;
        active_trades := delete i (active_trades st);
        historical_trades := historical_trades st ++ [trade] |},
     [Dashboard.Success "Trade cancelled successfully"]).
Proof.
  intros Hi. unfold cancel_trade. now rewrite (pop_in_range _ _ _ Hi).
Qed.

(** X26: [cancel_trade] at a position of the active trades removes that
    entry and only it, appends the trade to the history, marks the trade
    object ["Cancelled"] with the current time as its timestamp (leaving
    every other object alone) and shows a success; the same position counted
    from the end (a negative index) does the same. *)
Theorem cancel_moves_the_trade (now : Q) (i : nat) (trade : nat)
    (st : Session) :
  active_trades st !! i = Some trade ->
  cancel_trade now (Z.of_nat i) st =
    ({| heap := alter (mark_cancelled now) trade (heap st);
        opportunities := opportunities st;
        active_trades := delete i (active_trades st);
        historical_trades := historical_trades st ++ [trade] |},
     [Dashboard.Success "Trade cancelled successfully"]) /\
  cancel_trade now (Z.of_nat i - Z.of_nat (length (active_trades st))) st
    = cancel_trade now (Z.of_nat i) st /\
  (forall t, heap st !! trade = Some t ->
     exists t',
       heap (cancel_trade now (Z.of_nat i) st).1 !! trade = Some t' /\
       status t' = Some "Cancelled" /\
       Finder.timestamp (fields t') = now /\
       progress t' = progress t) /\
  (forall other, other <> trade ->
     heap (cancel_trade now (Z.of_nat i) st).1 !! other = heap st !! other).
Proof.
  intros Hi. pose proof (lookup_lt_Some _ _ _ Hi) as Hlt.
  pose proof (cancel_in_range now i trade st Hi) as Hrun.
  split; [exact Hrun|]. split; [|split].
  - unfold cancel_trade. rewrite pop_negative by lia.
    now replace (Z.of_nat i - Z.of_nat (length (active_trades st))
                 + Z.of_nat (length (active_trades st)))%Z
      with (Z.of_nat i) by lia.
  - intros t Ht. rewrite Hrun. cbn. exists (mark_cancelled now t).
    split; [|repeat split]. now rewrite lookup_alter_eq, Ht.
  - intros other Hne. rewrite Hrun. cbn. now rewrite lookup_alter_ne.
Qed.

(** X27: a trade object that is active at two positions (submitted twice)
    and cancelled at one of them is still among the active trades
    afterwards, where it now reads ["Cancelled"], and is the last entry of
    the history. *)
Theorem cancel_one_of_two_aliases (now : Q) (i j : nat) (trade : nat)
    (t : Trade) (st : Session) :
  active_trades st !! i = Some trade ->
  active_trades st !! j = Some trade ->
  i <> j ->
  heap st !! trade = Some t ->
  trade ∈ active_trades (cancel_trade now (Z.of_nat i) st).1 /\
  status <$> heap (cancel_trade now (Z.of_nat i) st).1 !! trade
    = Some (Some "Cancelled") /\
  last (historical_trades (cancel_trade now (Z.of_nat i) st).1) = Some trade.
Proof.
  intros Hi Hj Hne Ht.
  pose proof (cancel_in_range now i trade st Hi) as Hrun.
  rewrite Hrun. cbn. split; [|split].
  - destruct (decide (j < i)) as [Hlt|Hge].
    + eapply list_elem_of_lookup_2. rewrite list_lookup_delete_lt by exact Hlt.
      exact Hj.
    + eapply (list_elem_of_lookup_2 _ (pred j)).
      rewrite list_lookup_delete_ge by lia.
      replace (S (pred j)) with j by lia. exact Hj.
  - now rewrite lookup_alter_eq, Ht.
  - apply last_snoc.
Qed.

(** X28: [update_trade_progress] never changes the three lists of the
    session; with an index that is negative or not below the number of
    active trades it changes nothing at all, and otherwise it sets status
    and progress of the trade object at that position and touches no other
    object. *)
Theorem update_trade_progress_spec (trade_idx : Z) (p : Q) (label : string)
    (st : Session) :
  opportunities (update_trade_progress trade_idx p label st) = opportunities st /\
  active_trades (update_trade_progress trade_idx p label st) = active_trades st /\
  historical_trades (update_trade_progress trade_idx p label st)
    = historical_trades st /\
  ((trade_idx < 0 \/ Z.of_nat (length (active_trades st)) <= trade_idx)%Z ->
   update_trade_progress trade_idx p label st = st) /\
  (forall trade t,
     (0 <= trade_idx)%Z ->
     active_trades st !! Z.to_nat trade_idx = Some trade ->
     heap st !! trade = Some t ->
     heap (update_trade_progress trade_idx p label st) !! trade
       = Some {| fields := fields t; status := Some label; progress := Some p |} /\
     forall other, other <> trade ->
       heap (update_trade_progress trade_idx p label st) !! other
         = heap st !! other).
Proof.
  unfold update_trade_progress.
  destruct ((0 <=? trade_idx) && (trade_idx <? Z.of_nat (length (active_trades st))))%Z
    eqn:Hin.
  - apply andb_true_iff in Hin as [Hpos Hlt].
    apply Z.leb_le in Hpos. apply Z.ltb_lt in Hlt.
    destruct (active_trades st !! Z.to_nat trade_idx) as [trade|] eqn:Hl; cbn.
    + do 3 (split; [reflexivity|]). split; [intros [H|H]; lia|].
      intros trade' t _ Hl' Ht. injection Hl' as <-. split.
      * now rewrite lookup_alter_eq, Ht.
      * intros other Hne. now rewrite lookup_alter_ne.
    + do 4 (split; [reflexivity|]). intros trade' t _ Hl'. discriminate.
  - do 4 (split; [reflexivity|]). intros trade t Hpos Hl Ht. exfalso.
    apply lookup_lt_Some in Hl.
    apply andb_false_iff in Hin as [H|H];
      [apply Z.leb_gt in H | apply Z.ltb_ge in H]; lia.
Qed.

(** The session on references and the dashboard's session of values agree
    on [execute_opportunity]. *)
Lemma view_execute_opportunity (trade : nat) (t : Trade) (st : Session) :
  heap st !! trade = Some t ->
  view (execute_opportunity trade st).1
    = (Dashboard.execute_opportunity (fields t) (view st)).1.
Proof.
  intros Ht. unfold view, execute_opportunity, Dashboard.execute_opportunity.
  cbn. rewrite omap_app. cbn. rewrite Ht. reflexivity.
Qed.

End ExecutorFacts.

Section RoundTrip.
Import Executor.

(** X29: executing an opportunity and then cancelling the position it was
    appended at gives back the active trades as they were, with the trade
    appended to the history and marked ["Cancelled"]. *)
Theorem execute_then_cancel (now : Q) (trade : nat) (st : Session) :
  cancel_trade now (Z.of_nat (length (active_trades st)))
    (execute_opportunity trade st).1 =
  ({| heap := alter (mark_cancelled now) trade (heap st);
      opportunities := opportunities st;
      active_trades := active_trades st;
      historical_trades := historical_trades st ++ [trade] |},
   [Dashboard.Success "Trade cancelled successfully"]).
Proof.
  rewrite (cancel_in_range now (length (active_trades st)) trade).
  2: { cbn. rewrite lookup_app_r by lia. now rewrite Nat.sub_diag. }
  cbn. now rewrite delete_middle, app_nil_r.
Qed.

End RoundTrip.

(** ** The settings *)

Section SettingsFacts.
Import Settings.

Lemma save_each_networks_of (e b p a : NetworkConfig) (st : gmap string string) :
  save_each (networks_of e b p a) st =
    (if enabled a then <["avalanche_rpc" := rpc a]> else id)
      ((if enabled p then <["polygon_rpc" := rpc p]> else id)
         ((if enabled b then <["bsc_rpc" := rpc b]> else id)
            ((if enabled e then <["ethereum_rpc" := rpc e]> else id) st))).
Proof.
  unfold save_each, networks_of. cbn.
  now destruct (enabled e), (enabled b), (enabled p), (enabled a).
Qed.

(** X30: saving the network settings and rendering the form again brings
    back the URLs entered for BSC and Polygon (when enabled), but not those
    for Ethereum and Avalanche: these are stored under ["ethereum_rpc"] and
    ["avalanche_rpc"], while the form reads ["eth_rpc"] and ["avax_rpc"],
    which saving never writes. *)
Theorem saved_urls_round_trip (e b p a : NetworkConfig)
    (st : gmap string string) :
  shown_urls (save_network_settings (networks_of e b p a) st).1 =
    [("Ethereum", default "" (st !! "eth_rpc"));
     ("BSC", if enabled b then rpc b else default "" (st !! "bsc_rpc"));
     ("Polygon", if enabled p then rpc p else default "" (st !! "polygon_rpc"));
     ("Avalanche", default "" (st !! "avax_rpc"))] /\
  (save_network_settings (networks_of e b p a) st).1 !! "ethereum_rpc"
    = (if enabled e then Some (rpc e) else st !! "ethereum_rpc") /\
  (save_network_settings (networks_of e b p a) st).1 !! "avalanche_rpc"
    = (if enabled a then Some (rpc a) else st !! "avalanche_rpc").
Proof.
  unfold save_network_settings, shown_urls. cbn [fst].
  rewrite save_each_networks_of.
  destruct (enabled e), (enabled b), (enabled p), (enabled a); cbn [id];
    repeat split; simplify_map_eq; reflexivity.
Qed.

End SettingsFacts.

(** * Instances of the further properties *)

Section ExecutionExamples.
Import Blockchain.
Import Execution.

Lemma missing_source_key_starts_no_leg_witness :
  first_missing_source_key no_source_dex = Some "source_dex" /\
  execute_arbitrage (legs := placeholder) no_source_dex (enter tt) =
    (inr {| success := false; transactions := [];
            errors := [Py.KeyError "source_dex"] |},
     {| world := tt;
        result := {| success := false; transactions := [];
                     errors := [Py.KeyError "source_dex"] |};
        journal := [] |}).
Proof.
  split; [reflexivity|].
  exact (missing_source_key_starts_no_leg (legs := placeholder) no_source_dex
           tt "source_dex" eq_refl).
Defined.

Lemma missing_target_key_found_late_witness :
  first_missing_source_key no_target_dex = None /\
  target_dex no_target_dex = None /\
  (execute_arbitrage (legs := placeholder) no_target_dex (enter tt)).1 =
    inr {| success := false;
           transactions :=
             [ DexTrade "ethereum" "uniswap" "buy" 10 (10 * (99 # 100)) "0x...";
               BridgeTransfer "ethereum" "polygon" "WETH" (10 * (99 # 100))
                 (10 * (99 # 100) * (995 # 1000)) "0x..." ];
           errors := [Py.KeyError "target_dex"] |}.
Proof.
  split; [reflexivity|]. split; [reflexivity|].
  assert ("ethereum" <> "polygon") as Hne by discriminate.
  rewrite (proj2 (missing_target_key_found_late (legs := placeholder)
                    no_target_dex tt "ethereum" "uniswap" 10 ("WETH", "USDT")
                    (DexTrade "ethereum" "uniswap" "buy" 10 (10 * (99 # 100))
                       "0x...") tt
                    eq_refl eq_refl eq_refl eq_refl eq_refl)
             "polygon"
             (BridgeTransfer "ethereum" "polygon" "WETH" (10 * (99 # 100))
                (10 * (99 # 100) * (995 # 1000)) "0x...") tt
             eq_refl Hne eq_refl eq_refl).
  reflexivity.
Defined.



End ExecutionExamples.

Section StrategyExamples.
Import Strategy.


Lemma analysis_score_not_negative_witness :
  exists a,
    analyze_opportunity (advisory := Finder.service_answers) init
      (Finder.opportunity_data (Finder.sample_opportunity 0)) 0%Q
      = (inr (Some a), 0%Q) /\
    (0 <= risk_score a <= 1)%Q.
Proof.
  eexists. split; [vm_compute; reflexivity|].
  eapply (analysis_score_not_negative (advisory := Finder.service_answers) init
            (Finder.opportunity_data (Finder.sample_opportunity 0))
            "analysis" 0%Q 0%Q 0%Q).
  - reflexivity.
  - vm_compute. discriminate.
  - vm_compute. discriminate.
  - vm_compute. reflexivity.
Defined.

Lemma sentiment_failure_gives_top_score_witness :
  exists a,
    analyze_opportunity (advisory := Finder.sentiment_times_out) init
      (Finder.opportunity_data (Finder.sample_opportunity 0)) 0%Q
      = (inr (Some a), 0%Q) /\
    (risk_score a == 1)%Q /\ recommendation a = "execute".
Proof.
  apply (sentiment_failure_gives_top_score (advisory := Finder.sentiment_times_out)
           init (Finder.opportunity_data (Finder.sample_opportunity 0))
           "analysis" 0%Q 0%Q 0%Q "timeout").
  - reflexivity.
  - reflexivity.
  - vm_compute. discriminate.
  - vm_compute. discriminate.
Defined.

Lemma risk_score_monotone_witness :
  exists s1 s2 w',
    _calculate_risk_score (advisory := Finder.service_answers) "analysis"
      (Finder.opportunity_data (Finder.sample_opportunity 0)) 0%Q
      = (inr s1, w') /\
    _calculate_risk_score (advisory := Finder.service_answers) "analysis"
      (Finder.opportunity_data
         (Finder.with_required_capital (Finder.sample_opportunity 0) 5000)) 0%Q
      = (inr s2, w') /\
    (s1 <= s2)%Q.
Proof.
  apply (risk_score_monotone (advisory := Finder.service_answers) "analysis"
           (Finder.opportunity_data (Finder.sample_opportunity 0))
           (Finder.opportunity_data
              (Finder.with_required_capital (Finder.sample_opportunity 0) 5000))
           0%Q).
  - vm_compute. discriminate.
  - vm_compute. discriminate.
Defined.

End StrategyExamples.

Section FinderExamples.
Import Finder.
Import Simulation.






End FinderExamples.

Section PricesExamples.
Import Prices.
Import PriceMonitor.


Lemma zero_previous_price_raises_witness :
  exists e s',
    monitor_rounds (quotes := second_call_fails) (pause := no_pause_nat) 3 init
      ("WETH", "USDT") ignore_change [("ethereum_uniswap", Some 0%Q)]
      {| world := 0; notified := [] |} = (inl e, s').
Proof.
  eapply (zero_previous_price_raises (quotes := second_call_fails)
            (pause := no_pause_nat) 2 init ("WETH", "USDT") ignore_change
            [("ethereum_uniswap", Some 0%Q)] _
            {| world := 0; notified := [] |} _
            "ethereum_uniswap" (Some 100%Q) 0%Q).
  - vm_compute. reflexivity.
  - constructor.
  - reflexivity.
  - reflexivity.
Defined.

Lemma placeholder_prices_crash_second_round_witness :
  exists s',
    monitor_price_changes (quotes := placeholder_quotes)
      (pause := no_pause_unit) 5 init ("WETH", "USDT") ignore_change
      {| world := tt; notified := [] |} = (inl ZeroDivisionError, s') /\
    notified s' = [].
Proof.
  apply (placeholder_prices_crash_second_round (pause := no_pause_unit) 3 init
           ("WETH", "USDT") ignore_change {| world := tt; notified := [] |}).
  discriminate.
Defined.

End PricesExamples.

Section ExecutorExamples.
Import Executor.

Lemma cancel_out_of_range_witness :
  exists e,
    cancel_trade 0 2 twice_active
    = (twice_active, [Dashboard.Error ("Error cancelling trade: " +:+ e)]).
Proof.
  apply (cancel_out_of_range 0 2 twice_active). right. cbn. lia.
Defined.

Lemma cancel_moves_the_trade_witness :
  active_trades (cancel_trade 7 0 twice_active).1 = [0] /\
  historical_trades (cancel_trade 7 0 twice_active).1 = [0] /\
  cancel_trade 7 (-2) twice_active = cancel_trade 7 0 twice_active.
Proof.
  destruct (cancel_moves_the_trade 7 0 0 twice_active eq_refl)
    as (Hrun & Hneg & _).
  split; [|split].
  - change (cancel_trade 7 0 twice_active)
      with (cancel_trade 7 (Z.of_nat 0) twice_active).
    rewrite Hrun. reflexivity.
  - change (cancel_trade 7 0 twice_active)
      with (cancel_trade 7 (Z.of_nat 0) twice_active).
    rewrite Hrun. reflexivity.
  - exact Hneg.
Defined.

Lemma cancel_one_of_two_aliases_witness :
  0 ∈ active_trades (cancel_trade 7 0 twice_active).1 /\
  status <$> heap (cancel_trade 7 0 twice_active).1 !! 0
    = Some (Some "Cancelled") /\
  last (historical_trades (cancel_trade 7 0 twice_active).1) = Some 0.
Proof.
  exact (cancel_one_of_two_aliases 7 0 1 0
           {| fields := Finder.sample_opportunity 0;
              status := None; progress := None |}
           twice_active eq_refl eq_refl ltac:(discriminate) eq_refl).
Defined.

End ExecutorExamples.
